(** * pyopenvr examples: a shallow embedding of the GLFW / OpenVR / OpenGL glue

    The programs of this repository are sequences of calls into three
    external libraries (GLFW, OpenGL, the OpenVR runtime).  The embedding
    keeps the objects of the Python code as records, and runs every method
    in a small monad that

    - reads the history of external calls made so far,
    - threads the state of [self],
    - returns normally, raises, or runs out of fuel (for the one [while]
      loop of the code), and
    - emits the external calls it makes, each with the value the library
      returned.

    The libraries themselves are not part of the repository: an
    environment [Env] decides what each call returns, as a function of the
    history.  External calls are taken to return (they do not raise). *)

From Stdlib Require Import ZArith List String QArith Reals Lra Lia.
From stdpp Require Import base gmap strings list fin_maps.

Open Scope Z_scope.
Open Scope string_scope.
Open Scope list_scope.

(** ** Python results *)

Inductive Exception : Type :=
| PyException (msg : string)      (* raise Exception(msg) *)
| RuntimeError (msg : string)
| ValueError (msg : string)
| AttributeError (msg : string)
| TypeError (msg : string)
| KeyError (msg : string)
| IndexError (msg : string).

Inductive Result (A : Type) : Type :=
| Ok (a : A)
| Raise (e : Exception)
| OutOfFuel.

Arguments Ok {A} a.
Arguments Raise {A} e.
Arguments OutOfFuel {A}.

Definition is_raise {A} (r : Result A) : bool :=
  match r with Raise _ => true | _ => false end.

Definition is_ok {A} (r : Result A) : bool :=
  match r with Ok _ => true | _ => false end.

(** ** Constants of the external libraries

    These are declared by PyOpenGL, pyGLFW and the OpenVR binding; the
    values are those of the C headers. *)

Module GL.
Definition GL_FRAMEBUFFER : Z := 0x8D40.
Definition GL_RENDERBUFFER : Z := 0x8D41.
Definition GL_DEPTH24_STENCIL8 : Z := 0x88F0.
Definition GL_DEPTH_STENCIL_ATTACHMENT : Z := 0x821A.
Definition GL_TEXTURE_2D : Z := 0x0DE1.
Definition GL_RGBA8 : Z := 0x8058.
Definition GL_RGBA : Z := 0x1908.
Definition GL_UNSIGNED_BYTE : Z := 0x1401.
Definition GL_UNSIGNED_INT : Z := 0x1405.
Definition GL_FLOAT : Z := 0x1406.
Definition GL_TEXTURE_MAG_FILTER : Z := 0x2800.
Definition GL_TEXTURE_MIN_FILTER : Z := 0x2801.
Definition GL_TEXTURE_WRAP_S : Z := 0x2802.
Definition GL_TEXTURE_WRAP_T : Z := 0x2803.
Definition GL_LINEAR : Z := 0x2601.
Definition GL_CLAMP_TO_EDGE : Z := 0x812F.
Definition GL_TEXTURE_MAX_LEVEL : Z := 0x813D.
Definition GL_COLOR_ATTACHMENT0 : Z := 0x8CE0.
Definition GL_FRAMEBUFFER_COMPLETE : Z := 0x8CD5.
Definition GL_COLOR_BUFFER_BIT : Z := 0x4000.
Definition GL_DEPTH_BUFFER_BIT : Z := 0x0100.
Definition GL_TRIANGLES : Z := 0x0004.
Definition GL_VERTEX_SHADER : Z := 0x8B31.
Definition GL_FRAGMENT_SHADER : Z := 0x8B30.
Definition GL_DEPTH_TEST : Z := 0x0B71.
Definition GL_ARRAY_BUFFER : Z := 0x8892.
Definition GL_ELEMENT_ARRAY_BUFFER : Z := 0x8893.
End GL.

Module glfw.
Definition CONTEXT_VERSION_MAJOR : Z := 0x00022002.
Definition CONTEXT_VERSION_MINOR : Z := 0x00022003.
Definition OPENGL_PROFILE : Z := 0x00022008.
Definition OPENGL_CORE_PROFILE : Z := 0x00032001.
Definition KEY_ESCAPE : Z := 256.
Definition PRESS : Z := 1.
End glfw.

Module openvr.
Definition VRApplication_Scene : Z := 1.
Definition k_unMaxTrackedDeviceCount : nat := 16.
Definition k_unTrackedDeviceIndex_Hmd : nat := 0.
Definition Eye_Left : Z := 0.
Definition Eye_Right : Z := 1.
Definition API_OpenGL : Z := 1.
Definition ColorSpace_Gamma : Z := 1.
Definition VRRenderModelError_None : Z := 0.
Definition VRRenderModelError_Loading : Z := 100.
Definition Prop_RenderModelName_String : Z := 1003.
End openvr.

(** ** Data of the OpenVR runtime *)

(** A [c_float] is only ever passed around by the code modelled here (no
    arithmetic), so an exact rational stands for it. *)
Definition c_float : Type := Q.

(** [HmdMatrix34_t]: three rows of four floats. *)
Definition HmdMatrix34_t : Type := list (list c_float).

Record TrackedDevicePose_t : Type := {
  mDeviceToAbsoluteTracking : HmdMatrix34_t;
  bPoseIsValid : bool;
  bDeviceIsConnected : bool
}.

Record Texture_t : Type := {
  handle : Z;
  eType : Z;
  eColorSpace : Z
}.

Record RenderModel_Vertex_t : Type := {
  vPosition : c_float * c_float * c_float;
  vNormal : c_float * c_float * c_float;
  rfTextureCoord : c_float * c_float
}.

(** [rVertexData] and [rIndexData] are C pointers: indexing them is not
    bounds-checked, so they are total functions of the index. *)
Record RenderModel_t : Type := {
  unVertexCount : nat;
  rVertexData : nat -> RenderModel_Vertex_t;
  unTriangleCount : nat;
  rIndexData : nat -> Z
}.

(** A 4x4 numpy matrix, as passed to [glUniformMatrix4fv]. *)
Definition Matrix : Type := list (list c_float).

(** ** External calls *)

Definition Window : Type := Z.
Definition Compositor : Type := Z.
Definition VrSystem : Type := Z.

Inductive Event : Type :=
(* glfw *)
| glfw_init (result : bool)
| glfw_window_hint (hint value : Z)
| glfw_create_window (width height : Z) (title : string) (result : option Window)
| glfw_terminate
| glfw_set_key_callback (w : Window)
| glfw_make_context_current (w : Window)
| glfw_swap_buffers (w : Window)
| glfw_poll_events
| glfw_set_window_should_close (w : Window) (value : bool)
(* openvr *)
| openvr_init (application_type : Z) (result : VrSystem)
| openvr_shutdown
| getRecommendedRenderTargetSize (width height : Z)
| VRCompositor (result : option Compositor)
| waitGetPoses (count : nat) (poses : list TrackedDevicePose_t)
| submit (eye : Z) (texture : Texture_t)
| VRSystem
| getStringTrackedDeviceProperty (device : nat) (prop : Z) (result : string)
| VRRenderModels
| loadRenderModel_Async (name : string) (error : Z) (model : option RenderModel_t)
(* time *)
| time_sleep (seconds : Z)
(* OpenGL *)
| glGenFramebuffers (n : Z) (result : Z)
| glBindFramebuffer (target fb : Z)
| glGenRenderbuffers (n : Z) (result : Z)
| glBindRenderbuffer (target rb : Z)
| glRenderbufferStorage (target format width height : Z)
| glFramebufferRenderbuffer (target attachment rbtarget rb : Z)
| glGenTextures (n : Z) (result : Z)
| glBindTexture (target tex : Z)
| glTexImage2D (target level internalformat width height border format type : Z)
| glTexParameteri (target pname param : Z)
| glFramebufferTexture2D (target attachment textarget tex level : Z)
| glCheckFramebufferStatus (target : Z) (result : Z)
| glDeleteTextures (textures : list Z)
| glDeleteRenderbuffers (n : Z) (rbs : list Z)
| glDeleteFramebuffers (fbs : list Z)
| glClearColor (r g b a : Q)
| glClear (mask : Z)
| compileShader (source : string) (shader_type : Z) (result : Z)
| compileProgram (vertex fragment : Z) (result : Z)
| glGenVertexArrays (n : Z) (result : Z)
| glBindVertexArray (vao : Z)
| glUseProgram (program : Z)
| glDrawArrays (mode first count : Z)
| glDeleteProgram (program : Z)
| glDeleteVertexArrays (n : Z) (vaos : list Z)
| glEnable (cap : Z)
| glGenBuffers (n : Z) (result : Z)
| glBindBuffer (target buffer : Z)
| glDeleteBuffers (n : Z) (buffers : list Z)
| glUniformMatrix4fv (location count : Z) (transpose : bool) (value : option Matrix)
| vbo_bind (target : Z)
| glEnableVertexAttribArray (index : Z)
| glVertexAttribPointer (index size type : Z) (normalized : bool) (stride offset : Z)
| glDrawElements (mode : Z) (count : nat) (type : Z).

Definition History : Type := list Event.

(** What the libraries answer, given the calls made so far. *)
Record Env : Type := {
  env_glfw_init : History -> bool;
  env_glfw_create_window : History -> option Window;
  env_openvr_init : History -> VrSystem;
  env_getRecommendedRenderTargetSize : History -> Z * Z;
  env_VRCompositor : History -> option Compositor;
  env_waitGetPoses : History -> nat -> TrackedDevicePose_t;
  env_getStringTrackedDeviceProperty : History -> nat -> string;
  env_loadRenderModel_Async : History -> string -> Z * option RenderModel_t;
  env_glGen : History -> Z;
  env_glCheckFramebufferStatus : History -> Z;
  env_compileShader : History -> Z;
  env_compileProgram : History -> Z;
  (* numpy and openvr.gl_renderer: pure, but they can raise *)
  env_matrixForOpenVrMatrix : HmdMatrix34_t -> Matrix;
  env_matmul : Matrix -> option Matrix -> Result Matrix;
  env_inverse_transpose : Matrix -> Result Matrix
}.

(** ** The monad of methods *)

Definition M (S A : Type) : Type := History -> S -> Result A * S * list Event.

Definition ret {S A} (a : A) : M S A := fun _ s => (Ok a, s, []).

Definition bind {S A B} (m : M S A) (f : A -> M S B) : M S B :=
  fun h s =>
    match m h s with
    | (Ok a, s1, e1) =>
        match f a (h ++ e1) s1 with
        | (r, s2, e2) => (r, s2, e1 ++ e2)
        end
    | (Raise x, s1, e1) => (Raise x, s1, e1)
    | (OutOfFuel, s1, e1) => (OutOfFuel, s1, e1)
    end.

Definition raise {S A} (x : Exception) : M S A := fun _ s => (Raise x, s, []).
Definition out_of_fuel {S A} : M S A := fun _ s => (OutOfFuel, s, []).
Definition get {S} : M S S := fun _ s => (Ok s, s, []).
Definition put {S} (s : S) : M S unit := fun _ _ => (Ok tt, s, []).
Definition modify {S} (f : S -> S) : M S unit := fun _ s => (Ok tt, f s, []).

(** An external call that returns what the environment decides. *)
Definition ask {S A} (answer : History -> A) (ev : A -> Event) : M S A :=
  fun h s => (Ok (answer h), s, [ev (answer h)]).

(** An external call without a result. *)
Definition call {S} (ev : Event) : M S unit := fun _ s => (Ok tt, s, [ev]).

(** A method of an attribute of [self]: run it on the attribute and store
    the attribute back, whatever the outcome (Python mutates in place). *)
Definition zoom {S T A} (proj : S -> T) (upd : T -> S -> S) (m : M T A) : M S A :=
  fun h s => match m h (proj s) with (r, t, e) => (r, upd t s, e) end.

Declare Scope py_scope.
Delimit Scope py_scope with py.
Notation "x <- m ;; k" := (bind m (fun x => k))
  (at level 100, m at next level, right associativity) : py_scope.
Notation "m ;; k" := (bind m (fun _ => k))
  (at level 100, right associativity) : py_scope.
Open Scope py_scope.

(** [for x in xs: body] *)
Fixpoint for_ {S X} (xs : list X) (body : X -> M S unit) : M S unit :=
  match xs with
  | [] => ret tt
  | x :: rest => body x ;; for_ rest body
  end.

(** The result, final state and emitted calls of a run. *)
Definition result_of {S A} (x : Result A * S * list Event) : Result A := fst (fst x).
Definition state_of {S A} (x : Result A * S * list Event) : S := snd (fst x).
Definition events_of {S A} (x : Result A * S * list Event) : list Event := snd x.

(** A method keeps a relation between the state it starts from and the
    state it leaves, whatever its outcome. *)
Definition keeps {S A} (R : S -> S -> Prop) (m : M S A) : Prop :=
  forall h s, R s (state_of (m h s)).

(** ** The interface of OpenGL actors: [BasicGlResource] *)

Module Actor.
Class BasicGlResource (A : Type) : Type := {
    init_gl : M A unit;
    display_gl : option Matrix -> option Matrix -> M A unit;
    dispose_gl : M A unit
  }.
End Actor.

(** What [GlfwApp] asks of its renderer. *)
Module Renderer.
Class SceneRenderer (R : Type) : Type := {
    init_gl : M R unit;
    render_scene : M R unit;
    dispose_gl : M R unit
  }.
End Renderer.

(** ** hello_glfw.py: [GlfwApp] *)

Module GlfwApp.
Section WithRenderer.
Context (E : Env) {R : Type} `{Renderer.SceneRenderer R}.

Record t : Type := {
    renderer : option R;
    title : string;
    _is_initialized : bool;
    window : option Window
  }.

Definition set_window (w : option Window) (self : t) : t :=
    {| renderer := renderer self; title := title self;
       _is_initialized := _is_initialized self; window := w |}.

Definition set_is_initialized (b : bool) (self : t) : t :=
    {| renderer := renderer self; title := title self;
       _is_initialized := b; window := window self |}.

Definition set_renderer (r : option R) (self : t) : t :=
    {| renderer := r; title := title self;
       _is_initialized := _is_initialized self; window := window self |}.

Definition __init__ (renderer0 : option R) (title0 : string) : t :=
    {| renderer := renderer0; title := title0;
       _is_initialized := false; window := None |}.

  (** Run a method of [self.renderer], which is known not to be [None]. *)
Definition on_renderer {A} (r : R) (m : M R A) : M t A :=
    zoom (fun _ => r) (fun r' self => set_renderer (Some r') self) m.

Definition init_gl : M t unit :=
    self <- get ;;
    if _is_initialized self then ret tt
    else
      ok <- ask (env_glfw_init E) glfw_init ;;
      if negb ok then raise (PyException "GLFW Initialization error")
      else
        call (glfw_window_hint glfw.CONTEXT_VERSION_MAJOR 4) ;;
        call (glfw_window_hint glfw.CONTEXT_VERSION_MINOR 1) ;;
        call (glfw_window_hint glfw.OPENGL_PROFILE glfw.OPENGL_CORE_PROFILE) ;;
        w <- ask (env_glfw_create_window E)
                 (glfw_create_window 800 600 (title self)) ;;
        modify (set_window w) ;;
        match w with
        | None =>
            call glfw_terminate ;;
            raise (PyException "GLFW window creation error")
        | Some win =>
            call (glfw_set_key_callback win) ;;
            call (glfw_make_context_current win) ;;
            match renderer self with
            | Some r => on_renderer r Renderer.init_gl
            | None => ret tt
            end ;;
            modify (set_is_initialized true)
        end.

  (** [glfw.make_context_current(None)] detaches the context; with a window
      it is the call below.  [self.renderer.render_scene()] on [None] is an
      [AttributeError]. *)
Definition render_scene : M t unit :=
    init_gl ;;
    self <- get ;;
    match window self with
    | Some win => call (glfw_make_context_current win)
    | None => raise (TypeError "make_context_current: window is None")
    end ;;
    match renderer self with
    | Some r => on_renderer r Renderer.render_scene
    | None => raise (AttributeError "'NoneType' object has no attribute 'render_scene'")
    end ;;
    match window self with
    | Some win => call (glfw_swap_buffers win)
    | None => raise (TypeError "swap_buffers: window is None")
    end ;;
    call glfw_poll_events.

Definition dispose_gl : M t unit :=
    self <- get ;;
    match window self with
    | Some win =>
        call (glfw_make_context_current win) ;;
        match renderer self with
        | Some r => on_renderer r Renderer.dispose_gl
        | None => ret tt
        end
    | None => ret tt
    end ;;
    call glfw_terminate ;;
    modify (set_is_initialized false).

Definition key_callback (key action : Z) : M t unit :=
    self <- get ;;
    if Z.eqb key glfw.KEY_ESCAPE && Z.eqb action glfw.PRESS then
      match window self with
      | Some win => call (glfw_set_window_should_close win true)
      | None => raise (TypeError "set_window_should_close: window is None")
      end
    else ret tt.

  (** The calls of [init_gl] up to the creation of the window. *)
Definition before_create_window : list Event :=
    [glfw_init true;
     glfw_window_hint glfw.CONTEXT_VERSION_MAJOR 4;
     glfw_window_hint glfw.CONTEXT_VERSION_MINOR 1;
     glfw_window_hint glfw.OPENGL_PROFILE glfw.OPENGL_CORE_PROFILE].

  (** The flag is only ever set after a window was created. *)
Definition initialized_has_window (self : t) : Prop :=
    _is_initialized self = true -> window self <> None.

End WithRenderer.
Arguments t R : clear implicits.
End GlfwApp.

(** ** hello_glfw.py: [OpenVrGlRenderer] *)

Module OpenVrGlRenderer.
Section WithActor.
Context (E : Env) {A : Type} `{Actor.BasicGlResource A}.

  (** [None] in [vr_width], [vr_height], [poses] and [texture] is an
      attribute that [init_gl] has not set yet. *)
Record t : Type := {
    actor : A;
    vr_system : option VrSystem;
    texture_id : Z;
    fb : Z;
    depth_buffer : Z;
    vr_width : option Z;
    vr_height : option Z;
    compositor : option Compositor;
    poses : option (list TrackedDevicePose_t);
    texture : option Texture_t
  }.

Definition set_actor (a : A) (s : t) : t :=
    {| actor := a; vr_system := vr_system s; texture_id := texture_id s;
       fb := fb s; depth_buffer := depth_buffer s; vr_width := vr_width s;
       vr_height := vr_height s; compositor := compositor s;
       poses := poses s; texture := texture s |}.
Definition set_vr_system (v : option VrSystem) (s : t) : t :=
    {| actor := actor s; vr_system := v; texture_id := texture_id s;
       fb := fb s; depth_buffer := depth_buffer s; vr_width := vr_width s;
       vr_height := vr_height s; compositor := compositor s;
       poses := poses s; texture := texture s |}.
Definition set_texture_id (v : Z) (s : t) : t :=
    {| actor := actor s; vr_system := vr_system s; texture_id := v;
       fb := fb s; depth_buffer := depth_buffer s; vr_width := vr_width s;
       vr_height := vr_height s; compositor := compositor s;
       poses := poses s; texture := texture s |}.
Definition set_fb (v : Z) (s : t) : t :=
    {| actor := actor s; vr_system := vr_system s; texture_id := texture_id s;
       fb := v; depth_buffer := depth_buffer s; vr_width := vr_width s;
       vr_height := vr_height s; compositor := compositor s;
       poses := poses s; texture := texture s |}.
Definition set_depth_buffer (v : Z) (s : t) : t :=
    {| actor := actor s; vr_system := vr_system s; texture_id := texture_id s;
       fb := fb s; depth_buffer := v; vr_width := vr_width s;
       vr_height := vr_height s; compositor := compositor s;
       poses := poses s; texture := texture s |}.
Definition set_vr_size (wh : Z * Z) (s : t) : t :=
    {| actor := actor s; vr_system := vr_system s; texture_id := texture_id s;
       fb := fb s; depth_buffer := depth_buffer s; vr_width := Some (fst wh);
       vr_height := Some (snd wh); compositor := compositor s;
       poses := poses s; texture := texture s |}.
Definition set_compositor (v : option Compositor) (s : t) : t :=
    {| actor := actor s; vr_system := vr_system s; texture_id := texture_id s;
       fb := fb s; depth_buffer := depth_buffer s; vr_width := vr_width s;
       vr_height := vr_height s; compositor := v;
       poses := poses s; texture := texture s |}.
Definition set_poses (v : option (list TrackedDevicePose_t)) (s : t) : t :=
    {| actor := actor s; vr_system := vr_system s; texture_id := texture_id s;
       fb := fb s; depth_buffer := depth_buffer s; vr_width := vr_width s;
       vr_height := vr_height s; compositor := compositor s;
       poses := v; texture := texture s |}.
Definition set_texture (v : option Texture_t) (s : t) : t :=
    {| actor := actor s; vr_system := vr_system s; texture_id := texture_id s;
       fb := fb s; depth_buffer := depth_buffer s; vr_width := vr_width s;
       vr_height := vr_height s; compositor := compositor s;
       poses := poses s; texture := v |}.

Definition __init__ (actor0 : A) : t :=
    {| actor := actor0; vr_system := None; texture_id := 0; fb := 0;
       depth_buffer := 0; vr_width := None; vr_height := None;
       compositor := None; poses := None; texture := None |}.

  (** A freshly allocated ctypes array is zero-filled. *)
Definition zero_pose : TrackedDevicePose_t :=
    {| mDeviceToAbsoluteTracking := repeat (repeat 0%Q 4) 3;
       bPoseIsValid := false; bDeviceIsConnected := false |}.

Definition on_actor {B} (m : M A B) : M t B := zoom actor set_actor m.

Definition init_gl : M t unit :=
    on_actor Actor.init_gl ;;
    vs <- ask (env_openvr_init E) (openvr_init openvr.VRApplication_Scene) ;;
    modify (set_vr_system (Some vs)) ;;
    wh <- ask (env_getRecommendedRenderTargetSize E)
              (fun wh => getRecommendedRenderTargetSize (fst wh) (snd wh)) ;;
    modify (set_vr_size wh) ;;
    c <- ask (env_VRCompositor E) VRCompositor ;;
    modify (set_compositor c) ;;
    match c with
    | None => raise (PyException "Unable to create compositor")
    | Some _ =>
        modify (set_poses (Some (repeat zero_pose openvr.k_unMaxTrackedDeviceCount))) ;;
        (* Set up framebuffer and render textures *)
        fb0 <- ask (env_glGen E) (glGenFramebuffers 1) ;;
        modify (set_fb fb0) ;;
        call (glBindFramebuffer GL.GL_FRAMEBUFFER fb0) ;;
        db <- ask (env_glGen E) (glGenRenderbuffers 1) ;;
        modify (set_depth_buffer db) ;;
        call (glBindRenderbuffer GL.GL_RENDERBUFFER db) ;;
        call (glRenderbufferStorage GL.GL_RENDERBUFFER GL.GL_DEPTH24_STENCIL8
                (fst wh) (snd wh)) ;;
        call (glFramebufferRenderbuffer GL.GL_FRAMEBUFFER
                GL.GL_DEPTH_STENCIL_ATTACHMENT GL.GL_RENDERBUFFER db) ;;
        tex <- ask (env_glGen E) (glGenTextures 1) ;;
        modify (set_texture_id tex) ;;
        call (glBindTexture GL.GL_TEXTURE_2D tex) ;;
        call (glTexImage2D GL.GL_TEXTURE_2D 0 GL.GL_RGBA8 (fst wh) (snd wh) 0
                GL.GL_RGBA GL.GL_UNSIGNED_BYTE) ;;
        call (glTexParameteri GL.GL_TEXTURE_2D GL.GL_TEXTURE_MAG_FILTER GL.GL_LINEAR) ;;
        call (glTexParameteri GL.GL_TEXTURE_2D GL.GL_TEXTURE_MIN_FILTER GL.GL_LINEAR) ;;
        call (glTexParameteri GL.GL_TEXTURE_2D GL.GL_TEXTURE_WRAP_S GL.GL_CLAMP_TO_EDGE) ;;
        call (glTexParameteri GL.GL_TEXTURE_2D GL.GL_TEXTURE_WRAP_T GL.GL_CLAMP_TO_EDGE) ;;
        call (glTexParameteri GL.GL_TEXTURE_2D GL.GL_TEXTURE_MAX_LEVEL 0) ;;
        call (glFramebufferTexture2D GL.GL_FRAMEBUFFER GL.GL_COLOR_ATTACHMENT0
                GL.GL_TEXTURE_2D tex 0) ;;
        status <- ask (env_glCheckFramebufferStatus E)
                      (glCheckFramebufferStatus GL.GL_FRAMEBUFFER) ;;
        if negb (Z.eqb status GL.GL_FRAMEBUFFER_COMPLETE) then
          call (glBindFramebuffer GL.GL_FRAMEBUFFER 0) ;;
          raise (PyException "Incomplete framebuffer")
        else
          call (glBindFramebuffer GL.GL_FRAMEBUFFER 0) ;;
          (* OpenVR texture data *)
          modify (set_texture (Some {| handle := tex;
                                       eType := openvr.API_OpenGL;
                                       eColorSpace := openvr.ColorSpace_Gamma |}))
    end.

Definition display_gl (modelview projection : option Matrix) : M t unit :=
    on_actor (Actor.display_gl modelview projection).

  (** What [waitGetPoses] writes into the pose array. *)
Definition poses_after (h : History) : list TrackedDevicePose_t :=
    map (env_waitGetPoses E h) (seq 0 openvr.k_unMaxTrackedDeviceCount).

  (** [waitGetPoses] fills the array [self.poses] in place: all
      [k_unMaxTrackedDeviceCount] slots are written by the runtime. *)
Definition render_scene : M t unit :=
    self <- get ;;
    match compositor self with
    | None => raise (AttributeError "compositor")
    | Some _ =>
    match poses self with
    | None => raise (AttributeError "poses")
    | Some _ =>
        p <- ask poses_after (waitGetPoses openvr.k_unMaxTrackedDeviceCount) ;;
        modify (set_poses (Some p)) ;;
        match nth_error p openvr.k_unTrackedDeviceIndex_Hmd with
        | None => raise (IndexError "invalid index")
        | Some hmd_pose0 =>
            if negb (bPoseIsValid hmd_pose0) then ret tt
            else
              (* 1) On-screen render: *)
              let modelview := None in
              let projection := None in
              display_gl modelview projection ;;
              (* 2) VR render *)
              call (glBindFramebuffer GL.GL_FRAMEBUFFER (fb self)) ;;
              display_gl modelview projection ;;
              call (glBindFramebuffer GL.GL_FRAMEBUFFER 0) ;;
              match texture self with
              | None => raise (AttributeError "texture")
              | Some tex =>
                  call (submit openvr.Eye_Left tex) ;;
                  call (submit openvr.Eye_Right tex) ;;
                  call (glBindFramebuffer GL.GL_FRAMEBUFFER 0)
              end
        end
    end
    end.

Definition dispose_gl : M t unit :=
    on_actor Actor.dispose_gl ;;
    self <- get ;;
    match vr_system self with
    | Some _ => call openvr_shutdown ;; modify (set_vr_system None)
    | None => ret tt
    end ;;
    call (glDeleteTextures [texture_id self]) ;;
    call (glDeleteRenderbuffers 1 [depth_buffer self]) ;;
    call (glDeleteFramebuffers [fb self]) ;;
    modify (set_fb 0).

#[export] Instance resource : Actor.BasicGlResource t :=
    {| Actor.init_gl := init_gl;
       Actor.display_gl := display_gl;
       Actor.dispose_gl := dispose_gl |}.

#[export] Instance scene_renderer : Renderer.SceneRenderer t :=
    {| Renderer.init_gl := init_gl;
       Renderer.render_scene := render_scene;
       Renderer.dispose_gl := dispose_gl |}.

End WithActor.
Arguments t A : clear implicits.
End OpenVrGlRenderer.

(** ** hello_glfw.py: the actors *)

Module BasicGlResource.
  (** The no-op base class: an object without attributes. *)
Definition t : Type := unit.
Definition init_gl : M t unit := ret tt.
Definition display_gl (modelview projection : option Matrix) : M t unit := ret tt.
Definition dispose_gl : M t unit := ret tt.
#[export] Instance resource : Actor.BasicGlResource t :=
    {| Actor.init_gl := init_gl;
       Actor.display_gl := display_gl;
       Actor.dispose_gl := dispose_gl |}.
End BasicGlResource.

Module BlueBackgroundActor.
Inductive t : Type := Build.
Definition display_gl (modelview projection : option Matrix) : M t unit :=
    call (glClearColor 0.5 0.5 1.0 0.0) ;;
    call (glClear GL.GL_COLOR_BUFFER_BIT).
  (** [init_gl] and [dispose_gl] are inherited from [BasicGlResource]. *)
#[export] Instance resource : Actor.BasicGlResource t :=
    {| Actor.init_gl := ret tt;
       Actor.display_gl := display_gl;
       Actor.dispose_gl := ret tt |}.
End BlueBackgroundActor.

Module ColorCubeActor.
Section WithEnv.
Context (E : Env).

  (** [vao] is only set by [init_gl]. *)
Record t : Type := { shader : Z; vao : option Z }.

Definition __init__ : t := {| shader := 0; vao := None |}.

Definition vertex_shader_source : string :=
"#version 450 core
#line 207

// Adapted from @jherico's RiftDemo.py in pyovr

layout(location = 0) uniform mat4 Projection = mat4(1);
layout(location = 4) uniform mat4 ModelView = mat4(1);
layout(location = 8) uniform float Size = 1.0;

const vec3 UNIT_CUBE[8] = vec3[8](
  vec3(-1.0, -1.0, -1.0), // 0: lower left rear
  vec3(+1.0, -1.0, -1.0), // 1: lower right rear
  vec3(-1.0, +1.0, -1.0), // 2: upper left rear
  vec3(+1.0, +1.0, -1.0), // 3: upper right rear
  vec3(-1.0, -1.0, +1.0), // 4: lower left front
  vec3(+1.0, -1.0, +1.0), // 5: lower right front
  vec3(-1.0, +1.0, +1.0), // 6: upper left front
  vec3(+1.0, +1.0, +1.0)  // 7: upper right front
);

const vec3 UNIT_CUBE_NORMALS[6] = vec3[6](
  vec3(0.0, 0.0, -1.0),
  vec3(0.0, 0.0, 1.0),
  vec3(1.0, 0.0, 0.0),
  vec3(-1.0, 0.0, 0.0),
  vec3(0.0, 1.0, 0.0),
  vec3(0.0, -1.0, 0.0)
);

const int CUBE_INDICES[36] = int[36](
  0, 1, 2, 2, 1, 3, // front
  4, 6, 5, 6, 5, 7, // back
  0, 2, 4, 4, 2, 6, // left
  1, 3, 5, 5, 3, 7, // right
  2, 6, 3, 6, 3, 7, // top
  0, 1, 4, 4, 1, 5  // bottom
);

out vec3 _color;

void main() {
  _color = vec3(1.0, 0.0, 0.0);
  int vertexIndex = CUBE_INDICES[gl_VertexID];
  int normalIndex = gl_VertexID / 6;

  _color = UNIT_CUBE_NORMALS[normalIndex];
  if (any(lessThan(_color, vec3(0.0)))) {
      _color = vec3(1.0) + _color;
  }

  gl_Position = Projection * ModelView * vec4(UNIT_CUBE[vertexIndex] * Size, 1.0);
}
".

Definition fragment_shader_source : string :=
"#version 450 core
#line 278

in vec3 _color;
out vec4 FragColor;

void main() {
  FragColor = vec4(_color, 1.0);
}
".

Definition init_gl : M t unit :=
    vertex_shader <- ask (env_compileShader E)
                         (compileShader vertex_shader_source GL.GL_VERTEX_SHADER) ;;
    fragment_shader <- ask (env_compileShader E)
                           (compileShader fragment_shader_source GL.GL_FRAGMENT_SHADER) ;;
    program <- ask (env_compileProgram E)
                   (compileProgram vertex_shader fragment_shader) ;;
    modify (fun s => {| shader := program; vao := vao s |}) ;;
    vao0 <- ask (env_glGen E) (glGenVertexArrays 1) ;;
    modify (fun s => {| shader := shader s; vao := Some vao0 |}) ;;
    call (glBindVertexArray vao0).

Definition display_gl (modelview projection : option Matrix) : M t unit :=
    call (glClearColor 0.8 0.5 0.5 0.0) ;;  (* pink background *)
    call (glClear (Z.lor GL.GL_COLOR_BUFFER_BIT GL.GL_DEPTH_BUFFER_BIT)) ;;
    self <- get ;;
    call (glUseProgram (shader self)) ;;
    call (glDrawArrays GL.GL_TRIANGLES 0 36).

Definition dispose_gl : M t unit :=
    self <- get ;;
    call (glDeleteProgram (shader self)) ;;
    modify (fun s => {| shader := 0; vao := vao s |}) ;;
    match vao self with
    | None => raise (AttributeError "vao")
    | Some v =>
        call (glDeleteVertexArrays 1 [v]) ;;
        modify (fun s => {| shader := shader s; vao := Some 0 |})
    end.

#[export] Instance resource : Actor.BasicGlResource t :=
    {| Actor.init_gl := init_gl;
       Actor.display_gl := display_gl;
       Actor.dispose_gl := dispose_gl |}.

End WithEnv.
End ColorCubeActor.

(** ** tracked_devices_actor.py: [TrackedDeviceMesh] *)

Definition lift_result {S A} (r : Result A) : M S A := fun _ s => (r, s, []).

Module TrackedDeviceMesh.
Section WithEnv.
Context (E : Env).

  (** [OpenGL.arrays.vbo.VBO]: the data and the binding target. *)
Record VBO (T : Type) : Type := { data : list T; target : Z }.
Arguments data {T} _.
Arguments target {T} _.

Record t : Type := {
    model_name : string;
    vbo : Z;
    vertexPositions : VBO c_float;
    indexPositions : VBO Z
  }.

Definition set_vbo (v : Z) (self : t) : t :=
    {| model_name := model_name self; vbo := v;
       vertexPositions := vertexPositions self;
       indexPositions := indexPositions self |}.

  (** [while True: error, model = loadRenderModel_Async(model_name); ...] *)
Fixpoint load_loop {S} (fuel : nat) (name : string)
    : M S (Z * option RenderModel_t) :=
    match fuel with
    | O => out_of_fuel
    | Datatypes.S fuel' =>
        call VRRenderModels ;;
        r <- ask (fun h => env_loadRenderModel_Async E h name)
                 (fun r => loadRenderModel_Async name (fst r) (snd r)) ;;
        if negb (Z.eqb (fst r) openvr.VRRenderModelError_Loading) then ret r
        else call (time_sleep 1) ;; load_loop fuel' name
    end.

Definition vertex_floats (vd : RenderModel_Vertex_t) : list c_float :=
    let '(px, py, pz) := vPosition vd in
    let '(nx, ny, nz) := vNormal vd in
    let '(tu, tv) := rfTextureCoord vd in
    [px; py; pz; nx; ny; nz; tu; tv].

Definition vertices_of (model : option RenderModel_t) : list c_float :=
    match model with
    | Some m => flat_map (fun v => vertex_floats (rVertexData m v))
                         (seq 0 (unVertexCount m))
    | None => []
    end.

Definition indices_of (model : option RenderModel_t) : list Z :=
    match model with
    | Some m => map (rIndexData m) (seq 0 (unTriangleCount m * 3))
    | None => []
    end.

Definition Loading : Z := openvr.VRRenderModelError_Loading.

  (** What the runtime answers to an attempt made after the calls [h]. *)
Definition attempt_answer (name : string) (h : History) : Z * option RenderModel_t :=
    env_loadRenderModel_Async E (h ++ [VRRenderModels]) name.

  (** The calls of one attempt that is followed by a sleep. *)
Definition attempt_and_sleep (name : string) (h : History) : list Event :=
    [VRRenderModels;
     loadRenderModel_Async name (fst (attempt_answer name h))
                           (snd (attempt_answer name h));
     time_sleep 1].

  (** The calls of [n] such attempts in a row, starting after [h]. *)
Fixpoint loading_attempts (n : nat) (name : string) (h : History) : list Event :=
    match n with
    | O => []
    | Datatypes.S n' =>
        attempt_and_sleep name h
          ++ loading_attempts n' name (h ++ attempt_and_sleep name h)
    end.

  (** The object the constructor builds from the model it ends up with. *)
Definition mesh_of (name : string) (vbo0 : Z) (model : option RenderModel_t) : t :=
    {| model_name := name; vbo := vbo0;
       vertexPositions := {| data := vertices_of model;
                             target := GL.GL_ARRAY_BUFFER |};
       indexPositions := {| data := indices_of model;
                            target := GL.GL_ELEMENT_ARRAY_BUFFER |} |}.

  (** The constructor: it returns the new object. *)
Definition __init__ {S} (fuel : nat) (name : string) : M S t :=
    vbo0 <- ask (env_glGen E) (glGenBuffers 1) ;;
    call (glBindBuffer GL.GL_ARRAY_BUFFER vbo0) ;;
    (* Load controller model *)
    r <- load_loop fuel name ;;
    let model := snd r in
    ret (mesh_of name vbo0 model).

  (** [sizeof(c_float)] *)
Definition fsize : Z := 4.

Definition display_gl {S} (self : t) (modelview projection : option Matrix)
             (pose : TrackedDevicePose_t) : M S unit :=
    let controller_X_room :=
      env_matrixForOpenVrMatrix E (mDeviceToAbsoluteTracking pose) in
    modelview0 <- lift_result (env_matmul E controller_X_room modelview) ;;
    call (glUniformMatrix4fv 4 1 false (Some modelview0)) ;;
    normal_matrix <- lift_result (env_inverse_transpose E controller_X_room) ;;
    call (glUniformMatrix4fv 8 1 false (Some normal_matrix)) ;;
    call (vbo_bind (target (indexPositions self))) ;;
    call (vbo_bind (target (vertexPositions self))) ;;
    (* Vertices *)
    call (glEnableVertexAttribArray 0) ;;
    call (glVertexAttribPointer 0 3 GL.GL_FLOAT false (8 * fsize) (0 * fsize)) ;;
    (* Normals *)
    call (glEnableVertexAttribArray 1) ;;
    call (glVertexAttribPointer 1 3 GL.GL_FLOAT false (8 * fsize) (3 * fsize)) ;;
    (* Texture coordinates *)
    call (glEnableVertexAttribArray 2) ;;
    call (glVertexAttribPointer 2 2 GL.GL_FLOAT false (8 * fsize) (6 * fsize)) ;;
    call (glDrawElements GL.GL_TRIANGLES (length (data (indexPositions self)))
            GL.GL_UNSIGNED_INT).

  (** [dispose_gl] returns the mutated object. *)
Definition dispose_gl {S} (self : t) : M S t :=
    call (glDeleteBuffers 1 [vbo self]) ;;
    ret (set_vbo 0 self).

End WithEnv.
End TrackedDeviceMesh.

(** ** tracked_devices_actor.py: [TrackedDevicesActor] *)

Module TrackedDevicesActor.
Section WithEnv.
Context (E : Env).

  (** Mesh objects live in a store and are named by their address there,
      so that two objects with equal fields are still two objects. *)
Definition ref : Type := nat.

Record t : Type := {
    shader : Z;
    poses : list TrackedDevicePose_t;
    meshes : gmap string ref;
    objects : list TrackedDeviceMesh.t
  }.

Definition set_shader (v : Z) (s : t) : t :=
    {| shader := v; poses := poses s; meshes := meshes s; objects := objects s |}.
Definition set_poses (v : list TrackedDevicePose_t) (s : t) : t :=
    {| shader := shader s; poses := v; meshes := meshes s; objects := objects s |}.
Definition set_meshes (v : gmap string ref) (s : t) : t :=
    {| shader := shader s; poses := poses s; meshes := v; objects := objects s |}.
Definition set_objects (v : list TrackedDeviceMesh.t) (s : t) : t :=
    {| shader := shader s; poses := poses s; meshes := meshes s; objects := v |}.

Definition __init__ (pose_array : list TrackedDevicePose_t) : t :=
    {| shader := 0; poses := pose_array; meshes := ∅; objects := [] |}.

  (** [self.meshes[model_name] = mesh] for a newly constructed [mesh]. *)
Definition store_mesh (name : string) (mesh : TrackedDeviceMesh.t) (s : t) : t :=
    {| shader := shader s; poses := poses s;
       meshes := <[name := length (objects s)]> (meshes s);
       objects := objects s ++ [mesh] |}.

Definition _check_devices (fuel : nat) : M t unit :=
    self <- get ;;
    for_ (seq 1 (length (poses self) - 1)) (fun i =>
      self <- get ;;
      match nth_error (poses self) i with
      | None => raise (IndexError "invalid index")
      | Some pose =>
          if negb (bPoseIsValid pose) then ret tt
          else
            call VRSystem ;;
            model_name <- ask (fun h => env_getStringTrackedDeviceProperty E h i)
                              (getStringTrackedDeviceProperty i
                                 openvr.Prop_RenderModelName_String) ;;
            self <- get ;;
            match meshes self !! model_name with
            | Some _ => ret tt
            | None =>
                mesh <- TrackedDeviceMesh.__init__ E fuel model_name ;;
                modify (store_mesh model_name mesh)
            end
      end).

Definition vertex_shader_source : string :=
"#version 450 core
#line 40

layout(location = 0) in vec3 in_Position;
layout(location = 1) in vec3 in_Normal;
layout(location = 2) in vec2 in_TexCoord;

layout(location = 0) uniform mat4 projection = mat4(1);
layout(location = 4) uniform mat4 model_view = mat4(1);
layout(location = 8) uniform mat4 normal_matrix = mat4(1);

out vec3 color;

void main() {
  gl_Position = projection * model_view * vec4(in_Position, 1.0);
  vec3 normal = normalize((normal_matrix * vec4(in_Normal, 0)).xyz);
  color = (normal + vec3(1,1,1)) * 0.5; // color by normal
  // color = vec3(in_TexCoord, 0.5); // color by texture coordinate
}
".

Definition fragment_shader_source : string :=
"#version 450 core
#line 59

in vec3 color;
out vec4 fragColor;

void main() {
  fragColor = vec4(color, 1.0);
}
".

Definition init_gl (fuel : nat) : M t unit :=
    vertex_shader <- ask (env_compileShader E)
                         (compileShader vertex_shader_source GL.GL_VERTEX_SHADER) ;;
    fragment_shader <- ask (env_compileShader E)
                           (compileShader fragment_shader_source GL.GL_FRAGMENT_SHADER) ;;
    program <- ask (env_compileProgram E)
                   (compileProgram vertex_shader fragment_shader) ;;
    modify (set_shader program) ;;
    _check_devices fuel ;;
    call (glEnable GL.GL_DEPTH_TEST).

Definition display_gl (fuel : nat) (modelview projection : option Matrix)
    : M t unit :=
    _check_devices fuel ;;
    self <- get ;;
    call (glUseProgram (shader self)) ;;
    call (glUniformMatrix4fv 0 1 false projection) ;;
    for_ (seq 1 (length (poses self) - 1)) (fun i =>
      self <- get ;;
      match nth_error (poses self) i with
      | None => raise (IndexError "invalid index")
      | Some pose =>
          if negb (bPoseIsValid pose) then ret tt
          else
            call VRSystem ;;
            model_name <- ask (fun h => env_getStringTrackedDeviceProperty E h i)
                              (getStringTrackedDeviceProperty i
                                 openvr.Prop_RenderModelName_String) ;;
            self <- get ;;
            match meshes self !! model_name with
            | None => ret tt
            | Some r =>
                match objects self !! r with
                | Some mesh =>
                    TrackedDeviceMesh.display_gl E mesh modelview projection pose
                | None => raise (RuntimeError "dangling mesh reference")
                end
            end
      end).

  (** [for key, mesh in self.meshes.iteritems()] on a Python 2 dictionary:
      the iterator remembers the size the dictionary had when the loop
      started ([di_used]) and the items it still has to visit; every step
      first compares the current size with [di_used]. *)
Fixpoint iteritems_loop (di_used : nat) (remaining : list (string * ref))
    : M t unit :=
    self <- get ;;
    if negb (Nat.eqb (size (meshes self)) di_used) then
      raise (RuntimeError "dictionary changed size during iteration")
    else
      match remaining with
      | [] => ret tt
      | (key, r) :: rest =>
          (* mesh.dispose_gl() *)
          match objects self !! r with
          | Some mesh =>
              mesh' <- TrackedDeviceMesh.dispose_gl mesh ;;
              modify (fun s => set_objects (<[r := mesh']> (objects s)) s)
          | None => raise (RuntimeError "dangling mesh reference")
          end ;;
          (* del self.meshes[key] *)
          self <- get ;;
          match meshes self !! key with
          | Some _ => modify (fun s => set_meshes (delete key (meshes s)) s)
          | None => raise (KeyError key)
          end ;;
          iteritems_loop di_used rest
      end.

Definition dispose_gl : M t unit :=
    self <- get ;;
    call (glDeleteProgram (shader self)) ;;
    modify (set_shader 0) ;;
    self <- get ;;
    iteritems_loop (size (meshes self)) (map_to_list (meshes self)).

  (** The dictionary and the store only grow: every entry is kept with
      the reference it has, and every stored object stays what it is. *)
Definition grows (s s' : t) : Prop :=
    meshes s ⊆ meshes s' /\ objects s `prefix_of` objects s'.

  (** What can happen to an actor during operation. *)
Inductive Call : Type :=
  | call_check_devices
  | call_display_gl (modelview projection : option Matrix)
  | call_init_gl
  (* the runtime rewrites the pose array the actor was given *)
  | poses_written (new_poses : list TrackedDevicePose_t).

Definition do_call (fuel : nat) (c : Call) : M t unit :=
    match c with
    | call_check_devices => _check_devices fuel
    | call_display_gl mv pr => display_gl fuel mv pr
    | call_init_gl => init_gl fuel
    | poses_written p => modify (set_poses p)
    end.

  (** A caller may catch an exception and go on; a call that does not
      return ends the run. *)
Fixpoint run_calls (fuel : nat) (cs : list Call) (h : History) (s : t)
    : t * list Event :=
    match cs with
    | [] => (s, [])
    | c :: rest =>
        match do_call fuel c h s with
        | (OutOfFuel, s1, e1) => (s1, e1)
        | (_, s1, e1) =>
            match run_calls fuel rest (h ++ e1) s1 with
            | (s2, e2) => (s2, e1 ++ e2)
            end
        end
    end.

End WithEnv.
End TrackedDevicesActor.

(** ** samples/HmdMatrix34_t_to_quaternion.py

    The entries of the matrix are taken as real numbers. *)

Module HmdMatrix34_t_to_quaternion.
  Local Open Scope R_scope.











End HmdMatrix34_t_to_quaternion.

(** ** The framebuffer that OpenGL draws to

    It is decided by the calls made so far: the last framebuffer bound,
    and the default framebuffer 0 at the start or once the bound one is
    deleted. *)

Definition bind_step (current : Z) (e : Event) : Z :=
  match e with
  | glBindFramebuffer _ fb => fb
  | glDeleteFramebuffers fbs =>
      if existsb (Z.eqb current) fbs then 0 else current
  | _ => current
  end.

Definition bound_framebuffer (h : History) : Z := fold_left bind_step h 0.

(** * Concrete inputs *)

Module Examples.


Definition identity34 : HmdMatrix34_t :=
    [[1; 0; 0; 0]; [0; 1; 0; 0]; [0; 0; 1; 0]]%Q.

Definition valid_pose : TrackedDevicePose_t :=
    {| mDeviceToAbsoluteTracking := identity34;
       bPoseIsValid := true; bDeviceIsConnected := true |}.

Definition invalid_pose : TrackedDevicePose_t :=
    {| mDeviceToAbsoluteTracking := identity34;
       bPoseIsValid := false; bDeviceIsConnected := false |}.

Definition one_triangle : RenderModel_t :=
    {| unVertexCount := 3;
       rVertexData := fun v =>
         {| vPosition := (inject_Z (Z.of_nat v), 0, 0)%Q;
            vNormal := (0, 0, 1)%Q;
            rfTextureCoord := (0, 0)%Q |};
       unTriangleCount := 1;
       rIndexData := fun i => Z.of_nat i |}.

  (** An environment in which everything works, up to the choices given
      as arguments.  Handles are numbered by the length of the history. *)
Definition make_env (glfw_ok : bool) (win : option Window)
             (comp : option Compositor) (status : Z)
             (pose : History -> nat -> TrackedDevicePose_t)
             (load : History -> string -> Z * option RenderModel_t) : Env :=
    {| env_glfw_init := fun _ => glfw_ok;
       env_glfw_create_window := fun _ => win;
       env_openvr_init := fun _ => 7;
       env_getRecommendedRenderTargetSize := fun _ => (1512, 1680);
       env_VRCompositor := fun _ => comp;
       env_waitGetPoses := pose;
       env_getStringTrackedDeviceProperty := fun _ i =>
         if Nat.even i then "vr_controller" else "lighthouse";
       env_loadRenderModel_Async := load;
       env_glGen := fun h => Z.of_nat (length h) + 1;
       env_glCheckFramebufferStatus := fun _ => status;
       env_compileShader := fun h => Z.of_nat (length h) + 1;
       env_compileProgram := fun h => Z.of_nat (length h) + 1;
       env_matrixForOpenVrMatrix := fun m => m ++ [[0; 0; 0; 1]%Q];
       env_matmul := fun a b =>
         match b with
         | Some _ => Ok a
         | None => Raise (TypeError "unsupported operand type(s) for *")
         end;
       env_inverse_transpose := fun a => Ok a |}.

Definition loaded_at_once (h : History) (name : string)
    : Z * option RenderModel_t :=
    (openvr.VRRenderModelError_None, Some one_triangle).

Definition env_ok : Env :=
    make_env true (Some 1) (Some 9) GL.GL_FRAMEBUFFER_COMPLETE
             (fun _ _ => valid_pose) loaded_at_once.

Definition env_glfw_init_fails : Env :=
    make_env false (Some 1) (Some 9) GL.GL_FRAMEBUFFER_COMPLETE
             (fun _ _ => valid_pose) loaded_at_once.

Definition env_no_window : Env :=
    make_env true None (Some 9) GL.GL_FRAMEBUFFER_COMPLETE
             (fun _ _ => valid_pose) loaded_at_once.

  (** [openvr.VRCompositor()] returns [None]; the framebuffer would be
      complete. *)
Definition env_no_compositor : Env :=
    make_env true (Some 1) None GL.GL_FRAMEBUFFER_COMPLETE
             (fun _ _ => valid_pose) loaded_at_once.

  (** The headset is not tracked any more. *)
Definition env_hmd_lost : Env :=
    make_env true (Some 1) (Some 9) GL.GL_FRAMEBUFFER_COMPLETE
             (fun _ _ => invalid_pose) loaded_at_once.

  (** The program of [hello_glfw.py]: a colour cube in an OpenVR renderer
      in a GLFW application. *)
Definition actor0 : ColorCubeActor.t := ColorCubeActor.__init__.
Definition renderer0 : OpenVrGlRenderer.t ColorCubeActor.t :=
    OpenVrGlRenderer.__init__ actor0.
Definition glfwApp : GlfwApp.t (OpenVrGlRenderer.t ColorCubeActor.t) :=
    GlfwApp.__init__ (Some renderer0) "glfw OpenVR color cube".

  (** A renderer in the middle of a session: initialised, and the last
      frame saw every device tracked. *)
Definition renderer_running : OpenVrGlRenderer.t ColorCubeActor.t :=
    {| OpenVrGlRenderer.actor := {| ColorCubeActor.shader := 3;
                                    ColorCubeActor.vao := Some 4 |};
       OpenVrGlRenderer.vr_system := Some 7;
       OpenVrGlRenderer.texture_id := 13;
       OpenVrGlRenderer.fb := 9;
       OpenVrGlRenderer.depth_buffer := 11;
       OpenVrGlRenderer.vr_width := Some 1512;
       OpenVrGlRenderer.vr_height := Some 1680;
       OpenVrGlRenderer.compositor := Some 9;
       OpenVrGlRenderer.poses :=
         Some (repeat valid_pose openvr.k_unMaxTrackedDeviceCount);
       OpenVrGlRenderer.texture :=
         Some {| handle := 13; eType := openvr.API_OpenGL;
                 eColorSpace := openvr.ColorSpace_Gamma |} |}.

  (** The interfaces at which [hello_glfw.py] uses its objects. *)
Definition cube_resource (E : Env) : Actor.BasicGlResource ColorCubeActor.t :=
    ColorCubeActor.resource E.
Definition cube_renderer (E : Env)
    : Renderer.SceneRenderer (OpenVrGlRenderer.t ColorCubeActor.t) :=
    @OpenVrGlRenderer.scene_renderer E _ (cube_resource E).

Definition app_init_gl (E : Env) := @GlfwApp.init_gl E _ (cube_renderer E).
Definition app_render_scene (E : Env) := @GlfwApp.render_scene E _ (cube_renderer E).
Definition renderer_init_gl (E : Env) := @OpenVrGlRenderer.init_gl E _ (cube_resource E).
Definition renderer_render_scene (E : Env) :=
    @OpenVrGlRenderer.render_scene E _ (cube_resource E).
Definition renderer_dispose_gl (E : Env) :=
    @OpenVrGlRenderer.dispose_gl _ (cube_resource E).

  (** The first frame of [hello_glfw.py] when everything works. *)
Definition app_after_init : GlfwApp.t (OpenVrGlRenderer.t ColorCubeActor.t) :=
    state_of (app_init_gl env_ok [] glfwApp).
Definition init_events : list Event :=
    events_of (app_init_gl env_ok [] glfwApp).
Definition renderer_after_init : OpenVrGlRenderer.t ColorCubeActor.t :=
    match GlfwApp.renderer app_after_init with
    | Some r => r
    | None => renderer0
    end.
Definition cube_draw (program : Z) : list Event :=
    [glClearColor 0.8 0.5 0.5 0.0;
     glClear (Z.lor GL.GL_COLOR_BUFFER_BIT GL.GL_DEPTH_BUFFER_BIT);
     glUseProgram program;
     glDrawArrays GL.GL_TRIANGLES 0 36].

  (** The runtime answers [Loading] twice before the model is there. *)
Definition loaded_on_third_attempt (h : History) (name : string)
    : Z * option RenderModel_t :=
    if (length (List.filter (fun e => match e with
                                 | loadRenderModel_Async _ _ _ => true
                                 | _ => false
                                 end) h) <? 2)%nat
    then (openvr.VRRenderModelError_Loading, None)
    else (openvr.VRRenderModelError_None, Some one_triangle).

Definition env_slow_load : Env :=
    make_env true (Some 1) (Some 9) GL.GL_FRAMEBUFFER_COMPLETE
             (fun _ _ => valid_pose) loaded_on_third_attempt.

  (** An actor that has loaded the meshes of two devices. *)
Definition mesh_a : TrackedDeviceMesh.t :=
    TrackedDeviceMesh.mesh_of "lighthouse" 21 (Some one_triangle).
Definition mesh_b : TrackedDeviceMesh.t :=
    TrackedDeviceMesh.mesh_of "vr_controller" 22 (Some one_triangle).
Definition actor_two_meshes : TrackedDevicesActor.t :=
    {| TrackedDevicesActor.shader := 5;
       TrackedDevicesActor.poses := repeat valid_pose 3;
       TrackedDevicesActor.meshes :=
         <["lighthouse" := 0%nat]> (<["vr_controller" := 1%nat]> ∅);
       TrackedDevicesActor.objects := [mesh_a; mesh_b] |}.

Definition is_glDeleteBuffers (e : Event) : bool :=
    match e with glDeleteBuffers _ _ => true | _ => false end.

  (** An application whose window exists but whose renderer was never
      initialised (the cube actor has no vertex array yet). *)
Definition app_window_only : GlfwApp.t (OpenVrGlRenderer.t ColorCubeActor.t) :=
    GlfwApp.set_window (Some 1) glfwApp.

Definition app_dispose_gl (E : Env) := @GlfwApp.dispose_gl _ (cube_renderer E).

(* END-EXAMPLES *)
End Examples.

(** * Properties *)

Module HmdMatrix34_t_to_quaternion_facts.
Import HmdMatrix34_t_to_quaternion Examples.
  Local Open Scope R_scope.









End HmdMatrix34_t_to_quaternion_facts.

(** ** Running the monad *)

Ltac run_step :=
  cbv beta iota delta
    [bind ret raise out_of_fuel get put modify ask call zoom lift_result
     result_of state_of events_of fst snd].

Module GlfwApp_facts.
Section WithRenderer.
Context (E : Env) {R : Type} `{Renderer.SceneRenderer R}.
Import GlfwApp.

Lemma init_gl_done (app : t R) (h : History) :
    _is_initialized app = true -> init_gl E h app = (Ok tt, app, []).
  Proof. intros Hi. unfold init_gl. run_step. rewrite Hi. reflexivity. Qed.

Lemma init_gl_ok_initialized (app app' : t R) (h : History) (ev : list Event) :
    init_gl E h app = (Ok tt, app', ev) -> _is_initialized app' = true.
  Proof.
    unfold init_gl, on_renderer. run_step.
    destruct (_is_initialized app) eqn:Hi.
    { intros [= <- _]. exact Hi. }
    destruct (env_glfw_init E (h ++ [])); cbn [negb]; [|discriminate].
    destruct (env_glfw_create_window E _) as [win|]; [|discriminate].
    destruct (renderer app) as [r|].
    - destruct (Renderer.init_gl _ r) as [[[ []| |] r'] e']; try discriminate.
      intros [= <- _]. reflexivity.
    - intros [= <- _]. reflexivity.
  Qed.

  (** C7. A successful [init_gl] sets the flag, and from then on
      [init_gl] returns at once: it makes no call at all (no GLFW
      initialisation, no window, no [renderer.init_gl]) and leaves the
      application as it is, so calling it twice is calling it once. *)
Theorem init_gl_idempotent (app app' : t R) (h : History) (ev : list Event) :
    init_gl E h app = (Ok tt, app', ev) ->
    _is_initialized app' = true
    /\ (forall h', init_gl E h' app' = (Ok tt, app', []))
    /\ (init_gl E ;; init_gl E) h app = (Ok tt, app', ev).
  Proof.
    intros Hrun. pose proof (init_gl_ok_initialized _ _ _ _ Hrun) as Hi.
    split; [exact Hi|]. split.
    - intros h'. apply init_gl_done, Hi.
    - unfold bind at 1. rewrite Hrun, (init_gl_done _ _ Hi).
      rewrite app_nil_r. reflexivity.
  Qed.

Lemma init_gl_glfw_init_fails (app : t R) (h : History) :
    _is_initialized app = false ->
    env_glfw_init E h = false ->
    init_gl E h app
      = (Raise (PyException "GLFW Initialization error"), app, [glfw_init false]).
  Proof.
    intros Hi Hinit. unfold init_gl. run_step.
    rewrite Hi, app_nil_r, Hinit. reflexivity.
  Qed.

Lemma init_gl_create_window_fails (app : t R) (h : History) :
    _is_initialized app = false ->
    env_glfw_init E h = true ->
    env_glfw_create_window E (h ++ before_create_window) = None ->
    init_gl E h app
      = (Raise (PyException "GLFW window creation error"),
         set_window None app,
         before_create_window
           ++ [glfw_create_window 800 600 (title app) None; glfw_terminate]).
  Proof.
    intros Hi Hinit Hwin. unfold init_gl. run_step.
    rewrite Hi, app_nil_r, Hinit. cbn [negb].
    rewrite <- !app_assoc. cbn [Datatypes.app].
    unfold before_create_window in Hwin. rewrite Hwin. reflexivity.
  Qed.

Lemma init_gl_ok_window (app app' : t R) (h : History) (ev : list Event) :
    initialized_has_window app ->
    init_gl E h app = (Ok tt, app', ev) -> window app' <> None.
  Proof.
    intros Hwf. unfold init_gl, on_renderer. run_step.
    destruct (_is_initialized app) eqn:Hi.
    { intros [= <- _]. apply Hwf, Hi. }
    destruct (env_glfw_init E (h ++ [])); cbn [negb]; [|discriminate].
    destruct (env_glfw_create_window E _) as [win|]; [|discriminate].
    destruct (renderer app) as [r|].
    - destruct (Renderer.init_gl _ r) as [[[ []| |] r'] e']; try discriminate.
      intros [= <- _]. discriminate.
    - intros [= <- _]. discriminate.
  Qed.

  (** C6. [init_gl] raises when [glfw.init()] returns false; it raises
      when [glfw.create_window] returns [None], and then
      [glfw.terminate()] is its last call before the exception; and
      whenever it returns normally the window is not [None]. *)
Theorem init_gl_context_creation_failure (app : t R) (h : History) :
    initialized_has_window app ->
    (_is_initialized app = false ->
     env_glfw_init E h = false ->
     init_gl E h app
       = (Raise (PyException "GLFW Initialization error"), app, [glfw_init false]))
    /\ (_is_initialized app = false ->
        env_glfw_init E h = true ->
        env_glfw_create_window E (h ++ before_create_window) = None ->
        init_gl E h app
          = (Raise (PyException "GLFW window creation error"),
             set_window None app,
             before_create_window
               ++ [glfw_create_window 800 600 (title app) None; glfw_terminate]))
    /\ (forall app' ev,
          init_gl E h app = (Ok tt, app', ev) ->
          window app' <> None /\ initialized_has_window app').
  Proof.
    intros Hwf. split; [|split].
    - apply init_gl_glfw_init_fails.
    - apply init_gl_create_window_fails.
    - intros app' ev Hrun. pose proof (init_gl_ok_window _ _ _ _ Hwf Hrun).
      split; [assumption | intros _; assumption].
  Qed.

  (** The invariant holds of a new application and every method keeps it,
      whatever the outcome of the call. *)
Lemma __init___invariant (r : option R) (title0 : string) :
    initialized_has_window (__init__ r title0).
  Proof. intros Hi. discriminate Hi. Qed.

Lemma init_gl_invariant (app : t R) (h : History) :
    initialized_has_window app ->
    initialized_has_window (state_of (init_gl E h app)).
  Proof.
    intros Hwf. unfold init_gl, on_renderer. run_step.
    destruct (_is_initialized app) eqn:Hi; [intros _; apply Hwf, Hi|].
    destruct (env_glfw_init E (h ++ [])); cbn [negb];
      [|cbn; intros Hi'; congruence].
    destruct (env_glfw_create_window E _) as [win|];
      [|cbn; intros Hi'; cbn in Hi'; congruence].
    destruct (renderer app) as [r|].
    - destruct (Renderer.init_gl _ r) as [[[ []| |] r'] e']; cbn; intros _; discriminate.
    - cbn; intros _; discriminate.
  Qed.

Lemma dispose_gl_invariant (app : t R) (h : History) :
    initialized_has_window app ->
    initialized_has_window (state_of (dispose_gl h app)).
  Proof.
    intros Hwf. unfold dispose_gl, on_renderer. run_step.
    destruct (window app) as [win|] eqn:Hw.
    - destruct (renderer app) as [r|].
      + destruct (Renderer.dispose_gl _ r) as [[[ []| |] r'] e']; cbn;
          intros Hi; try discriminate; cbn; rewrite Hw; discriminate.
      + cbn; intros Hi; discriminate.
    - cbn; intros Hi; discriminate.
  Qed.

End WithRenderer.

Import Examples.

Lemma init_gl_idempotent_witness :
    let run := app_init_gl env_ok [] glfwApp in
    result_of run = Ok tt
    /\ forall h', app_init_gl env_ok h' (state_of run) = (Ok tt, state_of run, []).
  Proof.
    assert (Hrun : app_init_gl env_ok [] glfwApp
                   = (Ok tt, state_of (app_init_gl env_ok [] glfwApp),
                      events_of (app_init_gl env_ok [] glfwApp)))
      by (vm_compute; reflexivity).
    split; [vm_compute; reflexivity|].
    exact (proj1 (proj2 (init_gl_idempotent env_ok _ _ _ _ Hrun))).
  Defined.

Lemma init_gl_context_creation_failure_witness :
    GlfwApp.initialized_has_window glfwApp
    /\ result_of (app_init_gl env_glfw_init_fails [] glfwApp)
       = Raise (PyException "GLFW Initialization error")
    /\ result_of (app_init_gl env_no_window [] glfwApp)
       = Raise (PyException "GLFW window creation error")
    /\ GlfwApp.window (state_of (app_init_gl env_ok [] glfwApp)) <> None.
  Proof.
    assert (Hwf : GlfwApp.initialized_has_window glfwApp)
      by (intros Hi; vm_compute in Hi; discriminate Hi).
    split; [exact Hwf|].
    split; [|split].
    - unfold app_init_gl.
      rewrite (proj1 (init_gl_context_creation_failure
                        env_glfw_init_fails glfwApp [] Hwf)
                 eq_refl eq_refl).
      reflexivity.
    - unfold app_init_gl.
      rewrite (proj1 (proj2 (init_gl_context_creation_failure
                               env_no_window glfwApp [] Hwf))
                 eq_refl eq_refl eq_refl).
      reflexivity.
    - assert (Hrun : app_init_gl env_ok [] glfwApp
                     = (Ok tt, state_of (app_init_gl env_ok [] glfwApp),
                        events_of (app_init_gl env_ok [] glfwApp)))
        by (vm_compute; reflexivity).
      exact (proj1 (proj2 (proj2 (init_gl_context_creation_failure
                                    env_ok glfwApp [] Hwf)) _ _ Hrun)).
  Defined.

End GlfwApp_facts.

Module OpenVrGlRenderer_facts.
Section WithActor.
Context (E : Env) {A : Type} `{Actor.BasicGlResource A}.
Import OpenVrGlRenderer.

  (** C8, amended. When the pose of the headset comes back invalid,
      [render_scene] returns after its one call of [waitGetPoses]:
      nothing is drawn, nothing is submitted for either eye, and the
      renderer is as before except for the pose array, which holds the
      poses just fetched. *)
Theorem render_scene_invalid_pose (h : History) (r : t A)
          (c : Compositor) (p0 : list TrackedDevicePose_t) :
    compositor r = Some c ->
    poses r = Some p0 ->
    bPoseIsValid (env_waitGetPoses E h openvr.k_unTrackedDeviceIndex_Hmd) = false ->
    render_scene E h r
    = (Ok tt, set_poses (Some (poses_after E h)) r,
       [waitGetPoses openvr.k_unMaxTrackedDeviceCount (poses_after E h)]).
  Proof.
    intros Hc Hp Hinvalid. unfold render_scene. run_step.
    rewrite Hc, Hp, !app_nil_r. unfold poses_after.
    unfold openvr.k_unTrackedDeviceIndex_Hmd in Hinvalid.
    cbn [openvr.k_unMaxTrackedDeviceCount openvr.k_unTrackedDeviceIndex_Hmd
         seq map nth_error].
    rewrite Hinvalid. reflexivity.
  Qed.

  (** C5, amended. Given that the actor's own [init_gl] returns,
      [init_gl] raises exactly when [openvr.VRCompositor()] returns
      [None] or the framebuffer completeness check returns a status
      other than [GL_FRAMEBUFFER_COMPLETE]; in the latter case binding
      framebuffer 0 is its last call before the exception. *)
Theorem init_gl_raises_iff (h : History) (r : t A) (a1 : A) (e1 : list Event) :
    Actor.init_gl h (actor r) = (Ok tt, a1, e1) ->
    exists own : list Event,
      events_of (init_gl E h r) = e1 ++ own
      /\ (is_raise (result_of (init_gl E h r)) = true
          <-> (In (VRCompositor None) own
               \/ exists status,
                    In (glCheckFramebufferStatus GL.GL_FRAMEBUFFER status) own
                    /\ status <> GL.GL_FRAMEBUFFER_COMPLETE))
      /\ (forall status,
            In (glCheckFramebufferStatus GL.GL_FRAMEBUFFER status) own ->
            status <> GL.GL_FRAMEBUFFER_COMPLETE ->
            result_of (init_gl E h r) = Raise (PyException "Incomplete framebuffer")
            /\ exists before,
                 own = before
                         ++ [glCheckFramebufferStatus GL.GL_FRAMEBUFFER status;
                             glBindFramebuffer GL.GL_FRAMEBUFFER 0]).
  Proof.
    intros Hact. unfold init_gl, on_actor. run_step. rewrite Hact.
    destruct (env_VRCompositor E _) as [c|].
    - match goal with
      | |- context [Z.eqb (env_glCheckFramebufferStatus E ?hh) _] =>
          destruct (Z.eqb_spec (env_glCheckFramebufferStatus E hh)
                               GL.GL_FRAMEBUFFER_COMPLETE) as [Hst|Hst]
      end; cbn [negb].
      + eexists. split; [reflexivity|]. split.
        * split; [discriminate|].
          intros [Hin|(status & Hin & Hne)]; cbn [In] in Hin;
            repeat (destruct Hin as [Hin|Hin]; try discriminate Hin);
            try contradiction.
          injection Hin as <-. contradiction.
        * intros status Hin Hne. cbn [In] in Hin.
          repeat (destruct Hin as [Hin|Hin]; try discriminate Hin);
            try contradiction.
          injection Hin as <-. contradiction.
      + eexists. split; [reflexivity|]. split.
        * split; [intros _|reflexivity].
          right. eexists. split; [|exact Hst]. cbn [In Datatypes.app].
          do 18 right. left. reflexivity.
        * intros status Hin Hne. split; [reflexivity|].
          cbn [In Datatypes.app] in Hin.
          repeat (destruct Hin as [Hin|Hin]; try discriminate Hin);
            try contradiction.
          injection Hin as <-.
          eexists (_ :: _ :: _ :: _ :: _ :: _ :: _ :: _ :: _ :: _ :: _ :: _
                     :: _ :: _ :: _ :: _ :: _ :: _ :: []).
          reflexivity.
    - eexists. split; [reflexivity|]. split.
      + split; [intros _|reflexivity]. left. cbn. tauto.
      + intros status Hin Hne. cbn [In Datatypes.app] in Hin.
        repeat (destruct Hin as [Hin|Hin]; try discriminate Hin);
          contradiction.
  Qed.

Lemma bound_framebuffer_app (h e : list Event) :
    bound_framebuffer (h ++ e) = fold_left bind_step e (bound_framebuffer h).
  Proof. unfold bound_framebuffer. apply fold_left_app. Qed.

  (** The renderer's part of a frame in which the headset is tracked. *)
Lemma render_scene_valid_pose (h : History) (r : t A) (c : Compositor)
        (p0 : list TrackedDevicePose_t) (tex : Texture_t)
        (a1 a2 : A) (d1 d2 : list Event) :
    compositor r = Some c ->
    poses r = Some p0 ->
    texture r = Some tex ->
    bPoseIsValid (env_waitGetPoses E h openvr.k_unTrackedDeviceIndex_Hmd) = true ->
    let fetched := waitGetPoses openvr.k_unMaxTrackedDeviceCount (poses_after E h) in
    Actor.display_gl None None (h ++ [fetched]) (actor r) = (Ok tt, a1, d1) ->
    Actor.display_gl None None
      (h ++ [fetched] ++ d1 ++ [glBindFramebuffer GL.GL_FRAMEBUFFER (fb r)]) a1
      = (Ok tt, a2, d2) ->
    render_scene E h r
    = (Ok tt, set_actor a2 (set_poses (Some (poses_after E h)) r),
       [fetched] ++ d1 ++ [glBindFramebuffer GL.GL_FRAMEBUFFER (fb r)] ++ d2
         ++ [glBindFramebuffer GL.GL_FRAMEBUFFER 0;
             submit openvr.Eye_Left tex; submit openvr.Eye_Right tex;
             glBindFramebuffer GL.GL_FRAMEBUFFER 0]).
  Proof.
    intros Hc Hp Htex Hvalid fetched Hd1 Hd2.
    unfold render_scene, display_gl, on_actor. run_step.
    rewrite Hc, Hp, Htex, !app_nil_r.
    unfold openvr.k_unTrackedDeviceIndex_Hmd in Hvalid.
    assert (Hhmd : nth_error (poses_after E h) openvr.k_unTrackedDeviceIndex_Hmd
                   = Some (env_waitGetPoses E h 0)) by reflexivity.
    rewrite Hhmd, Hvalid. cbn [negb actor set_poses].
    fold fetched. rewrite Hd1.
    rewrite <- !app_assoc in *. cbn [Datatypes.app] in *.
    cbn [actor set_actor]. rewrite Hd2. cbn [Datatypes.app].
    rewrite ?app_nil_r. reflexivity.
  Qed.

End WithActor.

Import Examples.

Lemma render_scene_invalid_pose_witness :
    renderer_render_scene env_hmd_lost [] renderer_running
    = (Ok tt,
       OpenVrGlRenderer.set_poses
         (Some (repeat invalid_pose openvr.k_unMaxTrackedDeviceCount))
         renderer_running,
       [waitGetPoses openvr.k_unMaxTrackedDeviceCount
          (repeat invalid_pose openvr.k_unMaxTrackedDeviceCount)]).
  Proof.
    exact (render_scene_invalid_pose env_hmd_lost []
             renderer_running 9 _ eq_refl eq_refl eq_refl).
  Defined.

  (** C8 as stated fails: the headset pose comes back invalid, and the
      renderer is not what it was, since its pose array was overwritten. *)
Lemma render_scene_invalid_pose_changes_poses :
    bPoseIsValid (env_waitGetPoses env_hmd_lost []
                    openvr.k_unTrackedDeviceIndex_Hmd) = false
    /\ state_of (renderer_render_scene env_hmd_lost [] renderer_running)
       <> renderer_running.
  Proof.
    split; [reflexivity|].
    vm_compute. intros Heq. discriminate Heq.
  Qed.

Lemma init_gl_raises_iff_witness :
    exists own : list Event,
      events_of (renderer_init_gl env_no_compositor [] renderer0)
      = events_of (ColorCubeActor.init_gl env_no_compositor [] actor0) ++ own
      /\ (is_raise (result_of (renderer_init_gl env_no_compositor [] renderer0))
            = true
          <-> (In (VRCompositor None) own
               \/ exists status,
                    In (glCheckFramebufferStatus GL.GL_FRAMEBUFFER status) own
                    /\ status <> GL.GL_FRAMEBUFFER_COMPLETE)).
  Proof.
    destruct (init_gl_raises_iff env_no_compositor (H := cube_resource _)
                [] renderer0
                (state_of (ColorCubeActor.init_gl env_no_compositor [] actor0))
                (events_of (ColorCubeActor.init_gl env_no_compositor [] actor0))
                eq_refl) as (own & Hev & Hiff & _).
    exists own. split; [exact Hev | exact Hiff].
  Defined.

  (** C5 as stated fails: without a compositor [init_gl] raises although
      no framebuffer completeness check has returned anything. *)
Lemma init_gl_raises_without_framebuffer_check :
    let run := renderer_init_gl env_no_compositor [] renderer0 in
    ~ (is_raise (result_of run) = true
       <-> exists status,
             In (glCheckFramebufferStatus GL.GL_FRAMEBUFFER status) (events_of run)
             /\ status <> GL.GL_FRAMEBUFFER_COMPLETE).
  Proof.
    intros run [Hraise _].
    destruct (Hraise eq_refl) as (status & Hin & _).
    vm_compute in Hin.
    repeat (destruct Hin as [Hin|Hin]; try discriminate Hin).
    exact Hin.
  Qed.

End OpenVrGlRenderer_facts.

(** ** One frame of the application *)

Module Frame_facts.
Section WithActor.
Context (E : Env) {A : Type} `{Actor.BasicGlResource A}.
Import OpenVrGlRenderer OpenVrGlRenderer_facts.

  (** The application drives an [OpenVrGlRenderer]. *)
#[local] Instance frame_renderer : Renderer.SceneRenderer (t A) := scene_renderer E.

  (** C1. In a frame in which the pose of the headset is valid, one call
      of [GlfwApp.render_scene] makes, after [init_gl] (which makes no
      call once the application is initialised), exactly these calls in
      this order: the poses are fetched, the actor draws while the default
      framebuffer is bound, [self.fb] is bound and the actor draws again,
      the texture is submitted for the left eye and then for the right
      eye, and the window buffers are swapped.  The default framebuffer
      is bound again when the frame ends. *)
Theorem frame_pipeline_order
          (app app1 : GlfwApp.t (t A)) (h e0 : list Event) (win : Window)
          (r : t A) (c : Compositor) (p0 : list TrackedDevicePose_t)
          (tex : Texture_t) (a1 a2 : A) (d1 d2 : list Event) :
    GlfwApp.init_gl E h app = (Ok tt, app1, e0) ->
    GlfwApp.window app1 = Some win ->
    GlfwApp.renderer app1 = Some r ->
    compositor r = Some c ->
    poses r = Some p0 ->
    texture r = Some tex ->
    bound_framebuffer (h ++ e0) = 0 ->
    let h1 := h ++ e0 ++ [glfw_make_context_current win] in
    let fetched := waitGetPoses openvr.k_unMaxTrackedDeviceCount (poses_after E h1) in
    bPoseIsValid (env_waitGetPoses E h1 openvr.k_unTrackedDeviceIndex_Hmd) = true ->
    Actor.display_gl None None (h1 ++ [fetched]) (actor r) = (Ok tt, a1, d1) ->
    Actor.display_gl None None
      (h1 ++ [fetched] ++ d1 ++ [glBindFramebuffer GL.GL_FRAMEBUFFER (fb r)]) a1
      = (Ok tt, a2, d2) ->
    let frame :=
      [glfw_make_context_current win; fetched]
        ++ d1
        ++ [glBindFramebuffer GL.GL_FRAMEBUFFER (fb r)]
        ++ d2
        ++ [glBindFramebuffer GL.GL_FRAMEBUFFER 0;
            submit openvr.Eye_Left tex; submit openvr.Eye_Right tex;
            glBindFramebuffer GL.GL_FRAMEBUFFER 0;
            glfw_swap_buffers win; glfw_poll_events] in
    GlfwApp.render_scene E h app
    = (Ok tt,
       GlfwApp.set_renderer
         (Some (set_actor a2 (set_poses (Some (poses_after E h1)) r))) app1,
       e0 ++ frame)
    /\ bound_framebuffer (h1 ++ [fetched]) = 0
    /\ bound_framebuffer
         (h1 ++ [fetched] ++ d1 ++ [glBindFramebuffer GL.GL_FRAMEBUFFER (fb r)])
       = fb r
    /\ bound_framebuffer (h ++ e0 ++ frame) = 0.
  Proof.
    intros Hinit Hwin Hr Hc Hp Htex Hbound h1 fetched Hvalid Hd1 Hd2 frame.
    split; [|split; [|split]].
    - unfold GlfwApp.render_scene. unfold bind at 1. rewrite Hinit.
      run_step. rewrite Hwin, Hr. unfold GlfwApp.on_renderer. run_step.
      cbn [Renderer.render_scene frame_renderer scene_renderer].
      rewrite !app_nil_r, <- !app_assoc. fold h1.
      rewrite (render_scene_valid_pose E h1 r c p0 tex a1 a2 d1 d2
                 Hc Hp Htex Hvalid Hd1 Hd2).
      fold fetched. unfold frame.
      rewrite <- ?app_assoc. cbn [Datatypes.app]. rewrite <- ?app_assoc.
      cbn [Datatypes.app]. reflexivity.
    - unfold h1. rewrite <- !app_assoc, (app_assoc h e0).
      rewrite (bound_framebuffer_app (h ++ e0)), Hbound. reflexivity.
    - rewrite !app_assoc, bound_framebuffer_app. reflexivity.
    - unfold frame. rewrite !app_assoc, bound_framebuffer_app. reflexivity.
  Qed.

End WithActor.

Import Examples.

Lemma frame_pipeline_order_witness :
    let r := renderer_after_init in
    let tex := {| handle := OpenVrGlRenderer.texture_id r;
                  eType := openvr.API_OpenGL;
                  eColorSpace := openvr.ColorSpace_Gamma |} in
    let program := ColorCubeActor.shader (OpenVrGlRenderer.actor r) in
    result_of (app_render_scene env_ok [] glfwApp) = Ok tt
    /\ events_of (app_render_scene env_ok [] glfwApp)
       = init_events
           ++ [glfw_make_context_current 1;
               waitGetPoses openvr.k_unMaxTrackedDeviceCount
                 (repeat valid_pose openvr.k_unMaxTrackedDeviceCount)]
           ++ cube_draw program
           ++ [glBindFramebuffer GL.GL_FRAMEBUFFER (OpenVrGlRenderer.fb r)]
           ++ cube_draw program
           ++ [glBindFramebuffer GL.GL_FRAMEBUFFER 0;
               submit openvr.Eye_Left tex; submit openvr.Eye_Right tex;
               glBindFramebuffer GL.GL_FRAMEBUFFER 0;
               glfw_swap_buffers 1; glfw_poll_events].
  Proof.
    intros r tex program.
    assert (Hinit : app_init_gl env_ok [] glfwApp
                    = (Ok tt, app_after_init, init_events))
      by (vm_compute; reflexivity).
    destruct (frame_pipeline_order env_ok (H := cube_resource env_ok)
                glfwApp app_after_init [] init_events 1 r 9
                (repeat OpenVrGlRenderer.zero_pose openvr.k_unMaxTrackedDeviceCount)
                tex (OpenVrGlRenderer.actor r) (OpenVrGlRenderer.actor r)
                (cube_draw program) (cube_draw program)
                Hinit eq_refl eq_refl eq_refl eq_refl eq_refl eq_refl
                eq_refl eq_refl eq_refl) as [Hrun _].
    unfold app_render_scene.
    change (cube_renderer env_ok) with (frame_renderer env_ok (H := cube_resource env_ok)).
    rewrite Hrun. split; reflexivity.
  Defined.

End Frame_facts.

(** ** Loading a render model *)

Module TrackedDeviceMesh_facts.
Section WithEnv.
Context (E : Env).
Import TrackedDeviceMesh.

Lemma load_loop_step {S} (fuel : nat) (name : string) (h : History) (s : S) :
    load_loop E (Datatypes.S fuel) name h s
    = if Z.eqb (fst (attempt_answer E name h)) Loading
      then match load_loop E fuel name (h ++ attempt_and_sleep E name h) s with
           | (r, s', e) => (r, s', attempt_and_sleep E name h ++ e)
           end
      else (Ok (attempt_answer E name h), s,
            [VRRenderModels;
             loadRenderModel_Async name (fst (attempt_answer E name h))
                                   (snd (attempt_answer E name h))]).
  Proof.
    cbn [load_loop]. run_step. unfold attempt_answer, attempt_and_sleep, Loading.
    destruct (Z.eqb _ _); cbn [negb]; [|reflexivity].
    rewrite <- !app_assoc. cbn [Datatypes.app].
    destruct (load_loop E fuel name _ s) as [[r s'] e]. reflexivity.
  Qed.

  (** The loop, once some attempt is answered with a status other than
      [Loading]: it stops at the first such attempt. *)
Lemma load_loop_terminates {S} (name : string) (n : nat) :
    forall (h : History) (s : S),
    fst (attempt_answer E name (h ++ loading_attempts E n name h)) <> Loading ->
    exists k : nat,
      (k <= n)%nat
      /\ fst (attempt_answer E name (h ++ loading_attempts E k name h)) <> Loading
      /\ (forall j, (j < k)%nat ->
            fst (attempt_answer E name (h ++ loading_attempts E j name h)) = Loading)
      /\ forall fuel, (k < fuel)%nat ->
           load_loop E fuel name h s
           = (Ok (attempt_answer E name (h ++ loading_attempts E k name h)), s,
              loading_attempts E k name h
                ++ [VRRenderModels;
                    loadRenderModel_Async name
                      (fst (attempt_answer E name (h ++ loading_attempts E k name h)))
                      (snd (attempt_answer E name (h ++ loading_attempts E k name h)))]).
  Proof.
    induction n as [|n IH]; intros h s Hn.
    - exists 0%nat. cbn [loading_attempts] in *. rewrite app_nil_r in *.
      split; [lia|]. split; [exact Hn|]. split; [intros j Hj; lia|].
      intros [|fuel] Hfuel; [lia|]. rewrite load_loop_step.
      destruct (Z.eqb_spec (fst (attempt_answer E name h)) Loading); [contradiction|].
      reflexivity.
    - destruct (Z.eqb_spec (fst (attempt_answer E name h)) Loading) as [Hl|Hl].
      + cbn [loading_attempts] in Hn. rewrite app_assoc in Hn.
        destruct (IH (h ++ attempt_and_sleep E name h) s Hn)
          as (k & Hk & Hstop & Hbefore & Hrun).
        exists (Datatypes.S k). cbn [loading_attempts]. rewrite !app_assoc.
        split; [lia|]. split; [exact Hstop|]. split.
        * intros [|j] Hj.
          -- cbn [loading_attempts]. rewrite app_nil_r. exact Hl.
          -- cbn [loading_attempts]. rewrite app_assoc. apply Hbefore. lia.
        * intros [|fuel] Hfuel; [lia|]. rewrite load_loop_step.
          destruct (Z.eqb_spec (fst (attempt_answer E name h)) Loading);
            [|contradiction].
          rewrite (Hrun fuel) by lia. rewrite <- !app_assoc. reflexivity.
      + exists 0%nat. cbn [loading_attempts]. rewrite app_nil_r.
        split; [lia|]. split; [exact Hl|]. split; [intros j Hj; lia|].
        intros [|fuel] Hfuel; [lia|]. rewrite load_loop_step.
        destruct (Z.eqb_spec (fst (attempt_answer E name h)) Loading);
          [contradiction|]. reflexivity.
  Qed.

  (** C3. The constructor calls [loadRenderModel_Async] again and again,
      sleeping one second after every attempt that is answered with
      [VRRenderModelError_Loading]; it leaves the loop at the first
      attempt answered otherwise and builds the mesh from the model of
      exactly that attempt.  If some attempt is answered otherwise, the
      constructor returns (with enough fuel the loop ends). *)
Theorem mesh_init_retries_until_loaded {S} (name : string) (n : nat)
          (h : History) (s : S) :
    let vbo0 := env_glGen E h in
    let h0 := h ++ [glGenBuffers 1 vbo0; glBindBuffer GL.GL_ARRAY_BUFFER vbo0] in
    fst (attempt_answer E name (h0 ++ loading_attempts E n name h0)) <> Loading ->
    exists k : nat,
      (k <= n)%nat
      /\ (forall j, (j < k)%nat ->
            fst (attempt_answer E name (h0 ++ loading_attempts E j name h0)) = Loading)
      /\ let final := attempt_answer E name (h0 ++ loading_attempts E k name h0) in
         fst final <> Loading
         /\ forall fuel, (k < fuel)%nat ->
              __init__ E fuel name h s
              = (Ok (mesh_of name vbo0 (snd final)), s,
                 [glGenBuffers 1 vbo0; glBindBuffer GL.GL_ARRAY_BUFFER vbo0]
                   ++ loading_attempts E k name h0
                   ++ [VRRenderModels;
                       loadRenderModel_Async name (fst final) (snd final)]).
  Proof.
    intros vbo0 h0 Hn.
    destruct (load_loop_terminates name n h0 s Hn)
      as (k & Hk & Hstop & Hbefore & Hrun).
    exists k. split; [exact Hk|]. split; [exact Hbefore|].
    intros final. split; [exact Hstop|].
    intros fuel Hfuel. unfold __init__. run_step.
    rewrite ?app_nil_r, <- ?app_assoc. cbn [Datatypes.app].
    fold vbo0. fold h0. rewrite (Hrun fuel Hfuel). fold final.
    rewrite ?app_nil_r. reflexivity.
  Qed.

End WithEnv.

Import Examples.

Lemma mesh_init_retries_until_loaded_witness :
    exists k : nat,
      (k <= 2)%nat
      /\ forall fuel, (k < fuel)%nat ->
           is_ok (result_of (TrackedDeviceMesh.__init__ env_slow_load fuel
                               "vr_controller" [] tt)) = true.
  Proof.
    assert (Hn : fst (TrackedDeviceMesh.attempt_answer env_slow_load "vr_controller"
                   (([] ++ [glGenBuffers 1 (env_glGen env_slow_load []);
                            glBindBuffer GL.GL_ARRAY_BUFFER (env_glGen env_slow_load [])])
                    ++ TrackedDeviceMesh.loading_attempts env_slow_load 2 "vr_controller"
                         ([] ++ [glGenBuffers 1 (env_glGen env_slow_load []);
                                 glBindBuffer GL.GL_ARRAY_BUFFER
                                   (env_glGen env_slow_load [])])))
                 <> TrackedDeviceMesh.Loading)
      by (vm_compute; discriminate).
    destruct (mesh_init_retries_until_loaded env_slow_load "vr_controller" 2 [] tt Hn)
      as (k & Hk & _ & _ & Hrun).
    exists k. split; [exact Hk|].
    intros fuel Hfuel. rewrite (Hrun fuel Hfuel). reflexivity.
  Defined.

End TrackedDeviceMesh_facts.

(** ** Relations that every step of a method keeps *)

Module Keeps.
Section WithRelation.
Context {S : Type} (R : S -> S -> Prop).
Hypothesis R_refl : forall s, R s s.
Hypothesis R_trans : forall s1 s2 s3, R s1 s2 -> R s2 s3 -> R s1 s3.

Lemma keeps_ret {A} (a : A) : keeps R (ret a).
  Proof. intros h s. apply R_refl. Qed.

Lemma keeps_raise {A} (x : Exception) : keeps R (@raise S A x).
  Proof. intros h s. apply R_refl. Qed.

Lemma keeps_out_of_fuel {A} : keeps R (@out_of_fuel S A).
  Proof. intros h s. apply R_refl. Qed.

Lemma keeps_get : keeps R (@get S).
  Proof. intros h s. apply R_refl. Qed.

Lemma keeps_call (ev : Event) : keeps R (@call S ev).
  Proof. intros h s. apply R_refl. Qed.

Lemma keeps_ask {A} (answer : History -> A) (ev : A -> Event) :
    keeps R (@ask S A answer ev).
  Proof. intros h s. apply R_refl. Qed.

Lemma keeps_lift_result {A} (r : Result A) : keeps R (@lift_result S A r).
  Proof. intros h s. apply R_refl. Qed.

Lemma keeps_modify (f : S -> S) : (forall s, R s (f s)) -> keeps R (modify f).
  Proof. intros Hf h s. apply Hf. Qed.

Lemma keeps_bind {A B} (m : M S A) (f : A -> M S B) :
    keeps R m -> (forall a, keeps R (f a)) -> keeps R (bind m f).
  Proof.
    intros Hm Hf h s. specialize (Hm h s). unfold bind, state_of in *.
    destruct (m h s) as [[[a| |] s1] e1]; cbn [fst snd] in *; try exact Hm.
    specialize (Hf a (h ++ e1) s1). unfold state_of in Hf.
    destruct (f a (h ++ e1) s1) as [[r s2] e2]. cbn [fst snd] in *.
    eapply R_trans; eassumption.
  Qed.

Lemma keeps_for {X} (xs : list X) (body : X -> M S unit) :
    (forall x, keeps R (body x)) -> keeps R (for_ xs body).
  Proof.
    intros Hbody. induction xs as [|x xs IH]; cbn [for_].
    - apply keeps_ret.
    - apply keeps_bind; [apply Hbody | intros _; exact IH].
  Qed.

End WithRelation.
End Keeps.

(** ** The cache of meshes *)

Module TrackedDevicesActor_facts.
Section WithEnv.
Context (E : Env).
Import TrackedDevicesActor Keeps.

Lemma grows_refl (s : t) : grows s s.
  Proof. split; reflexivity. Qed.

Lemma grows_trans (s1 s2 s3 : t) : grows s1 s2 -> grows s2 s3 -> grows s1 s3.
  Proof. intros [Hm1 Ho1] [Hm2 Ho2]. split; etrans; eassumption. Qed.

  (** Constructing or drawing a mesh does not touch the state of the
      caller. *)
Lemma load_loop_state {S} (fuel : nat) (name : string) :
    keeps (@eq S) (TrackedDeviceMesh.load_loop E fuel name).
  Proof.
    induction fuel as [|fuel IH]; cbn [TrackedDeviceMesh.load_loop].
    - apply keeps_out_of_fuel. reflexivity.
    - apply keeps_bind; [congruence | apply keeps_call; reflexivity |].
      intros _. apply keeps_bind; [congruence | apply keeps_ask; reflexivity |].
      intros r. destruct (negb _).
      + apply keeps_ret. reflexivity.
      + apply keeps_bind; [congruence | apply keeps_call; reflexivity |].
        intros _. exact IH.
  Qed.

Lemma mesh_init_state {S} (fuel : nat) (name : string) :
    keeps (@eq S) (TrackedDeviceMesh.__init__ E fuel name).
  Proof.
    unfold TrackedDeviceMesh.__init__.
    apply keeps_bind; [congruence | apply keeps_ask; reflexivity |].
    intros vbo0. apply keeps_bind; [congruence | apply keeps_call; reflexivity |].
    intros _. apply keeps_bind; [congruence | apply load_loop_state |].
    intros r. apply keeps_ret. reflexivity.
  Qed.

Ltac keeps_grows :=
    repeat first
      [ apply keeps_ret; exact grows_refl
      | apply keeps_raise; exact grows_refl
      | apply keeps_get; exact grows_refl
      | apply keeps_call; exact grows_refl
      | apply keeps_ask; exact grows_refl
      | apply keeps_lift_result; exact grows_refl
      | apply keeps_bind; [exact grows_trans | | intros ?]
      | apply keeps_for; [exact grows_refl | exact grows_trans | intros ?] ].

Lemma mesh_display_gl_grows (mesh : TrackedDeviceMesh.t)
        (modelview projection : option Matrix) (pose : TrackedDevicePose_t) :
    keeps grows (TrackedDeviceMesh.display_gl E mesh modelview projection pose).
  Proof. unfold TrackedDeviceMesh.display_gl. keeps_grows. Qed.

  (** The one place where the dictionary is written: a new key, a new
      object. *)
Lemma store_new_mesh_grows (fuel : nat) (name : string) :
    keeps grows
      (self <- get ;;
       match meshes self !! name with
       | Some _ => ret tt
       | None =>
           mesh <- TrackedDeviceMesh.__init__ E fuel name ;;
           modify (store_mesh name mesh)
       end).
  Proof.
    intros h s. unfold bind at 1. unfold get. cbn [app_nil_r].
    destruct (meshes s !! name) as [r|] eqn:Hname.
    - apply grows_refl.
    - pose proof (mesh_init_state fuel name (h ++ []) s) as Hs.
      unfold bind, state_of, modify in *.
      destruct (TrackedDeviceMesh.__init__ E fuel name (h ++ []) s)
        as [[[mesh| |] s1] e1]; cbn [fst snd] in *; subst s1;
        try apply grows_refl.
      split; cbn [meshes objects store_mesh].
      + apply insert_subseteq, Hname.
      + apply prefix_app_r. reflexivity.
  Qed.

Lemma _check_devices_grows (fuel : nat) : keeps grows (_check_devices E fuel).
  Proof.
    unfold _check_devices.
    apply keeps_bind; [exact grows_trans | apply keeps_get; exact grows_refl |].
    intros self0. apply keeps_for; [exact grows_refl | exact grows_trans |].
    intros i. apply keeps_bind;
      [exact grows_trans | apply keeps_get; exact grows_refl |].
    intros self1. destruct (nth_error (poses self1) i) as [pose|];
      [|apply keeps_raise; exact grows_refl].
    destruct (negb (bPoseIsValid pose)); [apply keeps_ret; exact grows_refl|].
    apply keeps_bind; [exact grows_trans | apply keeps_call; exact grows_refl |].
    intros _. apply keeps_bind;
      [exact grows_trans | apply keeps_ask; exact grows_refl |].
    intros model_name. apply store_new_mesh_grows.
  Qed.

Lemma display_gl_grows (fuel : nat) (modelview projection : option Matrix) :
    keeps grows (display_gl E fuel modelview projection).
  Proof.
    unfold display_gl.
    apply keeps_bind; [exact grows_trans | apply _check_devices_grows |].
    intros _. apply keeps_bind;
      [exact grows_trans | apply keeps_get; exact grows_refl |].
    intros self0. keeps_grows.
    destruct (nth_error (poses _) _) as [pose|];
      [|apply keeps_raise; exact grows_refl].
    destruct (negb (bPoseIsValid pose)); [apply keeps_ret; exact grows_refl|].
    keeps_grows.
    destruct (meshes _ !! _) as [r|]; [|apply keeps_ret; exact grows_refl].
    destruct (objects _ !! r) as [mesh|];
      [apply mesh_display_gl_grows | apply keeps_raise; exact grows_refl].
  Qed.

Lemma init_gl_grows (fuel : nat) : keeps grows (init_gl E fuel).
  Proof.
    unfold init_gl.
    do 3 (apply keeps_bind;
          [exact grows_trans | apply keeps_ask; exact grows_refl | intros ?]).
    apply keeps_bind; [exact grows_trans | | intros _].
    { apply keeps_modify. intros s. split; reflexivity. }
    apply keeps_bind; [exact grows_trans | apply _check_devices_grows | intros _].
    apply keeps_call. exact grows_refl.
  Qed.

Lemma do_call_grows (fuel : nat) (c : Call) : keeps grows (do_call E fuel c).
  Proof.
    destruct c; cbn [do_call].
    - apply _check_devices_grows.
    - apply display_gl_grows.
    - apply init_gl_grows.
    - apply keeps_modify. intros s. split; reflexivity.
  Qed.

Lemma run_calls_grows (fuel : nat) (cs : list Call) :
    forall h s, grows s (fst (run_calls E fuel cs h s)).
  Proof.
    induction cs as [|c cs IH]; intros h s; cbn [run_calls fst].
    - apply grows_refl.
    - pose proof (do_call_grows fuel c h s) as Hc. unfold state_of in Hc.
      destruct (do_call E fuel c h s) as [[r s1] e1]. cbn [fst snd] in Hc.
      specialize (IH (h ++ e1) s1).
      destruct (run_calls E fuel cs (h ++ e1) s1) as [s2 e2]. cbn [fst] in IH.
      destruct r; cbn [fst]; try exact Hc; eapply grows_trans; eassumption.
  Qed.

  (** C2. Along every sequence of [_check_devices] and [display_gl] calls
      (and [init_gl], and the runtime rewriting the poses in between),
      whatever each call does, [self.meshes] only grows: an entry is
      never removed or replaced, so a model name keeps the mesh object it
      was given, and that object is left as it is. *)
Theorem meshes_add_only (fuel : nat) (cs : list Call) (h : History) (s : t) :
    let s' := fst (run_calls E fuel cs h s) in
    meshes s ⊆ meshes s'
    /\ objects s `prefix_of` objects s'
    /\ (forall name r, meshes s !! name = Some r -> meshes s' !! name = Some r)
    /\ (forall r mesh, objects s !! r = Some mesh -> objects s' !! r = Some mesh).
  Proof.
    intros s'. destruct (run_calls_grows fuel cs h s) as [Hm Ho].
    fold s' in Hm, Ho. split; [exact Hm|]. split; [exact Ho|]. split.
    - intros name r Hname. eapply lookup_weaken; eassumption.
    - intros r mesh Hr. destruct Ho as [more ->].
      apply lookup_app_l_Some, Hr.
  Qed.

  (** [dispose_gl] on a dictionary that is not empty: the first mesh is
      disposed and its entry deleted, and the next step of the iteration
      finds the size changed. *)
Lemma dispose_gl_raises (h : History) (s : t) (key : string) (r : ref)
        (mesh : TrackedDeviceMesh.t) (rest : list (string * ref)) :
    map_to_list (meshes s) = (key, r) :: rest ->
    objects s !! r = Some mesh ->
    dispose_gl h s
    = (Raise (RuntimeError "dictionary changed size during iteration"),
       set_meshes (delete key (meshes s))
         (set_objects (<[r := TrackedDeviceMesh.set_vbo 0 mesh]> (objects s))
            (set_shader 0 s)),
       [glDeleteProgram (shader s);
        glDeleteBuffers 1 [TrackedDeviceMesh.vbo mesh]]).
  Proof.
    intros Hlist Hobj.
    assert (Hkey : meshes s !! key = Some r).
    { apply elem_of_map_to_list. rewrite Hlist. left. }
    assert (Hsize : Nat.eqb (size (delete key (meshes s))) (size (meshes s)) = false).
    { apply Nat.eqb_neq. rewrite (map_size_delete_Some key (meshes s)) by eauto.
      assert (size (meshes s) <> 0%nat)
        by (apply map_size_non_empty_iff; intros Hempty;
            rewrite Hempty, lookup_empty in Hkey; discriminate).
      lia. }
    unfold dispose_gl. run_step. cbn [meshes objects shader set_shader].
    rewrite Hlist. cbn [iteritems_loop]. unfold TrackedDeviceMesh.dispose_gl.
    run_step. cbn [meshes objects shader set_shader set_objects set_meshes].
    rewrite Nat.eqb_refl, Hobj. cbn [negb].
    cbn [meshes objects shader set_shader set_objects set_meshes].
    rewrite Hkey.
    destruct rest as [|[key' r'] rest]; cbn [iteritems_loop]; run_step;
      cbn [meshes objects shader set_shader set_objects set_meshes];
      rewrite Hsize; reflexivity.
  Qed.

End WithEnv.

Import Examples.

Lemma meshes_add_only_witness :
    let s1 := fst (TrackedDevicesActor.run_calls env_ok 3
                     [TrackedDevicesActor.call_check_devices] []
                     (TrackedDevicesActor.__init__ (repeat valid_pose 3))) in
    let s2 := fst (TrackedDevicesActor.run_calls env_ok 3
                     [TrackedDevicesActor.call_display_gl None None;
                      TrackedDevicesActor.poses_written (repeat invalid_pose 3);
                      TrackedDevicesActor.call_check_devices] [] s1) in
    TrackedDevicesActor.meshes s1 !! "lighthouse" = Some 0%nat
    /\ TrackedDevicesActor.meshes s2 !! "lighthouse" = Some 0%nat.
  Proof.
    intros s1 s2.
    assert (H1 : TrackedDevicesActor.meshes s1 !! "lighthouse" = Some 0%nat)
      by (vm_compute; reflexivity).
    split; [exact H1|].
    exact (proj1 (proj2 (proj2 (meshes_add_only env_ok 3 _ [] s1))) _ _ H1).
  Defined.

  (** C4 at an actor with two meshes: [dispose_gl] raises after the first
      mesh; one entry is still in [self.meshes], and the buffer of its
      mesh was never deleted. *)
Theorem dispose_gl_leaves_a_mesh :
    let run := TrackedDevicesActor.dispose_gl [] actor_two_meshes in
    result_of run
    = Raise (RuntimeError "dictionary changed size during iteration")
    /\ size (TrackedDevicesActor.meshes (state_of run)) = 1%nat
    /\ length (List.filter is_glDeleteBuffers (events_of run)) = 1%nat
    /\ exists name r mesh,
         TrackedDevicesActor.meshes (state_of run) !! name = Some r
         /\ TrackedDevicesActor.objects (state_of run) !! r = Some mesh
         /\ TrackedDeviceMesh.vbo mesh <> 0.
  Proof.
    intros run.
    split; [vm_compute; reflexivity|].
    split; [vm_compute; reflexivity|].
    split; [vm_compute; reflexivity|].
    first
      [ exists "lighthouse", 0%nat, mesh_a;
        split; [vm_compute; reflexivity|];
        split; [vm_compute; reflexivity | vm_compute; discriminate]
      | exists "vr_controller", 1%nat, mesh_b;
        split; [vm_compute; reflexivity|];
        split; [vm_compute; reflexivity | vm_compute; discriminate] ].
  Qed.

End TrackedDevicesActor_facts.

(** ** The renderer: what [init_gl] leaves and what [dispose_gl] releases *)

Module OpenVrGlRenderer_lifetime.
Section WithActor.
Context (E : Env) {A : Type} `{Actor.BasicGlResource A}.
Import OpenVrGlRenderer OpenVrGlRenderer_facts.

  (** When [init_gl] returns normally the renderer is ready for a frame:
      it has a compositor and a VR system, sixteen zero-filled poses, a
      texture descriptor whose handle is [texture_id], and the default
      framebuffer is bound. *)
Theorem init_gl_ok_state (h : History) (r r' : t A) (ev : list Event) :
    init_gl E h r = (Ok tt, r', ev) ->
    bound_framebuffer (h ++ ev) = 0
    /\ compositor r' <> None
    /\ vr_system r' <> None
    /\ poses r' = Some (repeat zero_pose openvr.k_unMaxTrackedDeviceCount)
    /\ texture r' = Some {| handle := texture_id r';
                            eType := openvr.API_OpenGL;
                            eColorSpace := openvr.ColorSpace_Gamma |}.
  Proof.
    unfold init_gl, on_actor. run_step.
    destruct (Actor.init_gl h (actor r)) as [[[ []| |] a1] e1]; try discriminate.
    destruct (env_VRCompositor E _) as [c|]; [|discriminate].
    match goal with
    | |- context [Z.eqb (env_glCheckFramebufferStatus E ?hh) _] =>
        destruct (Z.eqb (env_glCheckFramebufferStatus E hh)
                        GL.GL_FRAMEBUFFER_COMPLETE)
    end; cbn [negb]; [|discriminate].
    intros [= <- <-].
    split.
    { rewrite app_assoc, bound_framebuffer_app. reflexivity. }
    repeat split; discriminate.
  Qed.

Lemma dispose_gl_run (h : History) (r : t A) (a1 : A) (d : list Event) :
    Actor.dispose_gl h (actor r) = (Ok tt, a1, d) ->
    dispose_gl h r
    = (Ok tt,
       set_fb 0 (set_vr_system None (set_actor a1 r)),
       d ++ (match vr_system r with Some _ => [openvr_shutdown] | None => [] end)
         ++ [glDeleteTextures [texture_id r];
             glDeleteRenderbuffers 1 [depth_buffer r];
             glDeleteFramebuffers [fb r]]).
  Proof.
    intros Hact. unfold dispose_gl, on_actor. run_step. rewrite Hact.
    destruct r as [a vs tid fb0 db w hh c p tx]. cbn.
    destruct vs as [v|]; cbn; rewrite ?app_nil_r; reflexivity.
  Qed.

  (** [dispose_gl], when the actor's own [dispose_gl] returns: OpenVR is
      shut down if it was started, then the texture, the depth
      renderbuffer and the framebuffer are deleted, in this order, and
      [fb] is reset to 0. *)
Theorem dispose_gl_releases (h : History) (r : t A) (a1 : A) (d : list Event) :
    Actor.dispose_gl h (actor r) = (Ok tt, a1, d) ->
    dispose_gl h r
    = (Ok tt,
       set_fb 0 (set_vr_system None (set_actor a1 r)),
       d ++ (match vr_system r with Some _ => [openvr_shutdown] | None => [] end)
         ++ [glDeleteTextures [texture_id r];
             glDeleteRenderbuffers 1 [depth_buffer r];
             glDeleteFramebuffers [fb r]]).
  Proof. apply dispose_gl_run. Qed.

  (** If the actor's [dispose_gl] raises, the renderer releases nothing:
      the exception passes through before any handle is deleted. *)
Theorem dispose_gl_actor_raises (h : History) (r : t A) (a1 : A)
          (d : list Event) (x : Exception) :
    Actor.dispose_gl h (actor r) = (Raise x, a1, d) ->
    dispose_gl h r = (Raise x, set_actor a1 r, d).
  Proof.
    intros Hact. unfold dispose_gl, on_actor. run_step. rewrite Hact.
    reflexivity.
  Qed.

  (** A second [dispose_gl] does not shut OpenVR down again, but it
      deletes the same texture and renderbuffer names once more, and
      framebuffer 0. *)
Theorem dispose_gl_twice (h : History) (r : t A) (a1 a2 : A) (d1 d2 : list Event) :
    Actor.dispose_gl h (actor r) = (Ok tt, a1, d1) ->
    Actor.dispose_gl (h ++ events_of (dispose_gl h r)) a1 = (Ok tt, a2, d2) ->
    dispose_gl (h ++ events_of (dispose_gl h r)) (state_of (dispose_gl h r))
    = (Ok tt,
       set_fb 0 (set_vr_system None (set_actor a2 r)),
       d2 ++ [glDeleteTextures [texture_id r];
              glDeleteRenderbuffers 1 [depth_buffer r];
              glDeleteFramebuffers [0]]).
  Proof.
    intros H1 H2. rewrite (dispose_gl_run h r a1 d1 H1) in *.
    unfold state_of, events_of in *. cbn [fst snd] in *.
    rewrite (dispose_gl_run _ _ a2 d2); [reflexivity | exact H2].
  Qed.

  (** A renderer whose [init_gl] never ran has no compositor:
      [render_scene] raises before it makes any call. *)
Theorem render_scene_uninitialised (h : History) (actor0 : A) :
    render_scene E h (__init__ actor0)
    = (Raise (AttributeError "compositor"), __init__ actor0, []).
  Proof. reflexivity. Qed.

End WithActor.

Import Examples.

Lemma init_gl_ok_state_witness :
    bound_framebuffer ([] ++ events_of (renderer_init_gl env_ok [] renderer0)) = 0.
  Proof.
    exact (proj1 (init_gl_ok_state env_ok (H := cube_resource env_ok) []
                    renderer0
                    (state_of (renderer_init_gl env_ok [] renderer0))
                    (events_of (renderer_init_gl env_ok [] renderer0))
                    eq_refl)).
  Defined.

Lemma dispose_gl_releases_witness :
    events_of (renderer_dispose_gl env_ok [] renderer_running)
    = [glDeleteProgram 3; glDeleteVertexArrays 1 [4]; openvr_shutdown;
       glDeleteTextures [13]; glDeleteRenderbuffers 1 [11];
       glDeleteFramebuffers [9]].
  Proof.
    unfold renderer_dispose_gl.
    rewrite (dispose_gl_releases (H := cube_resource env_ok) []
               renderer_running
               {| ColorCubeActor.shader := 0; ColorCubeActor.vao := Some 0 |}
               [glDeleteProgram 3; glDeleteVertexArrays 1 [4]] eq_refl).
    reflexivity.
  Defined.

Lemma dispose_gl_actor_raises_witness :
    renderer_dispose_gl env_ok [] renderer0
    = (Raise (AttributeError "vao"), renderer0, [glDeleteProgram 0]).
  Proof.
    exact (dispose_gl_actor_raises (H := cube_resource env_ok) [] renderer0
             actor0 [glDeleteProgram 0] (AttributeError "vao") eq_refl).
  Defined.

Lemma dispose_gl_twice_witness :
    let first := renderer_dispose_gl env_ok [] renderer_running in
    events_of (renderer_dispose_gl env_ok ([] ++ events_of first) (state_of first))
    = [glDeleteProgram 0; glDeleteVertexArrays 1 [0];
       glDeleteTextures [13]; glDeleteRenderbuffers 1 [11];
       glDeleteFramebuffers [0]].
  Proof.
    intros first. unfold first, renderer_dispose_gl.
    rewrite (dispose_gl_twice (H := cube_resource env_ok) [] renderer_running
               {| ColorCubeActor.shader := 0; ColorCubeActor.vao := Some 0 |}
               {| ColorCubeActor.shader := 0; ColorCubeActor.vao := Some 0 |}
               [glDeleteProgram 3; glDeleteVertexArrays 1 [4]]
               [glDeleteProgram 0; glDeleteVertexArrays 1 [0]]
               eq_refl eq_refl).
    reflexivity.
  Defined.

End OpenVrGlRenderer_lifetime.

(** ** The application: frames, keys and shutdown *)

Module GlfwApp_lifetime.
Section WithRenderer.
Context (E : Env) {R : Type} `{Renderer.SceneRenderer R}.
Import GlfwApp.

  (** A frame whose [init_gl] raises stops there: the exception passes
      through and no call of the frame itself is made. *)
Theorem render_scene_init_raises (h : History) (app app1 : t R)
          (e0 : list Event) (x : Exception) :
    init_gl E h app = (Raise x, app1, e0) ->
    render_scene E h app = (Raise x, app1, e0).
  Proof.
    intros Hinit. unfold render_scene. unfold bind at 1. rewrite Hinit.
    reflexivity.
  Qed.

  (** [key_callback] asks the window to close exactly on a press of
      ESCAPE; for every other key or action it makes no call. *)
Theorem key_callback_escape_only (h : History) (app : t R) (win : Window)
          (key action : Z) :
    window app = Some win ->
    key_callback key action h app
    = (Ok tt, app,
       if Z.eqb key glfw.KEY_ESCAPE && Z.eqb action glfw.PRESS
       then [glfw_set_window_should_close win true]
       else []).
  Proof.
    intros Hwin. unfold key_callback. run_step. rewrite Hwin.
    destruct (Z.eqb key glfw.KEY_ESCAPE && Z.eqb action glfw.PRESS); reflexivity.
  Qed.

  (** [dispose_gl] on an application that never got a window: the
      renderer is not touched, [glfw.terminate()] is the only call. *)
Theorem dispose_gl_without_window (h : History) (app : t R) :
    window app = None ->
    dispose_gl h app = (Ok tt, set_is_initialized false app, [glfw_terminate]).
  Proof.
    intros Hwin. unfold dispose_gl. run_step. rewrite Hwin. reflexivity.
  Qed.

  (** [dispose_gl] with a window: the context is made current, the
      renderer is disposed, GLFW is terminated and the flag is cleared. *)
Theorem dispose_gl_with_window (h : History) (app : t R) (win : Window)
          (r r' : R) (d : list Event) :
    window app = Some win ->
    renderer app = Some r ->
    Renderer.dispose_gl (h ++ [glfw_make_context_current win]) r = (Ok tt, r', d) ->
    dispose_gl h app
    = (Ok tt, set_is_initialized false (set_renderer (Some r') app),
       [glfw_make_context_current win] ++ d ++ [glfw_terminate]).
  Proof.
    intros Hwin Hr Hd. unfold dispose_gl, on_renderer. run_step.
    rewrite Hwin, Hr, !app_nil_r, Hd. cbn [Datatypes.app].
    rewrite ?app_nil_r. reflexivity.
  Qed.

  (** If the renderer's [dispose_gl] raises, [glfw.terminate()] is never
      called and the application still counts as initialised. *)
Theorem dispose_gl_renderer_raises (h : History) (app : t R) (win : Window)
          (r r' : R) (d : list Event) (x : Exception) :
    window app = Some win ->
    renderer app = Some r ->
    Renderer.dispose_gl (h ++ [glfw_make_context_current win]) r = (Raise x, r', d) ->
    dispose_gl h app
    = (Raise x, set_renderer (Some r') app, [glfw_make_context_current win] ++ d).
  Proof.
    intros Hwin Hr Hd. unfold dispose_gl, on_renderer. run_step.
    rewrite Hwin, Hr, !app_nil_r, Hd. cbn [Datatypes.app].
    rewrite ?app_nil_r. reflexivity.
  Qed.

  (** After [dispose_gl] has returned, [init_gl] is no longer a no-op: it
      starts over with [glfw.init()]. *)
Theorem init_gl_after_dispose_gl (h h' : History) (app app1 : t R)
          (e : list Event) :
    dispose_gl h app = (Ok tt, app1, e) ->
    _is_initialized app1 = false
    /\ exists rest,
         events_of (init_gl E h' app1) = glfw_init (env_glfw_init E h') :: rest.
  Proof.
    intros Hd.
    assert (Hflag : _is_initialized app1 = false).
    { revert Hd. unfold dispose_gl, on_renderer. run_step.
      destruct (window app) as [win|].
      - destruct (renderer app) as [r|].
        + destruct (Renderer.dispose_gl _ r) as [[[ []| |] r'] d];
            try discriminate. intros [= <- _]. reflexivity.
        + intros [= <- _]. reflexivity.
      - intros [= <- _]. reflexivity. }
    split; [exact Hflag|].
    unfold init_gl, on_renderer. run_step. rewrite Hflag, app_nil_r.
    destruct (env_glfw_init E h'); cbn [negb].
    - destruct (env_glfw_create_window E _) as [win|].
      + destruct (renderer app1) as [r|].
        * destruct (Renderer.init_gl _ r) as [[[ []| |] r'] d];
            eexists; reflexivity.
        * eexists; reflexivity.
      + eexists; reflexivity.
    - eexists; reflexivity.
  Qed.

End WithRenderer.

Section WithActor.
Context (E : Env) {A : Type} `{Actor.BasicGlResource A}.
Import OpenVrGlRenderer.

#[local] Instance app_renderer : Renderer.SceneRenderer (t A) := scene_renderer E.

Lemma renderer_skips_invalid_frame (h : History) (r : t A)
        (c : Compositor) (p0 : list TrackedDevicePose_t) :
    compositor r = Some c ->
    poses r = Some p0 ->
    bPoseIsValid (env_waitGetPoses E h openvr.k_unTrackedDeviceIndex_Hmd) = false ->
    render_scene E h r
    = (Ok tt, set_poses (Some (poses_after E h)) r,
       [waitGetPoses openvr.k_unMaxTrackedDeviceCount (poses_after E h)]).
  Proof.
    intros Hc Hp Hinvalid. unfold render_scene. run_step.
    rewrite Hc, Hp, !app_nil_r.
    assert (Hhmd : nth_error (poses_after E h) openvr.k_unTrackedDeviceIndex_Hmd
                   = Some (env_waitGetPoses E h 0)) by reflexivity.
    unfold openvr.k_unTrackedDeviceIndex_Hmd in Hinvalid.
    rewrite Hhmd, Hinvalid. reflexivity.
  Qed.

  (** A frame in which the headset is not tracked: the poses are fetched,
      nothing is drawn or submitted, and the window buffers are swapped
      all the same. *)
Theorem frame_without_tracking
          (app app1 : GlfwApp.t (t A)) (h e0 : list Event) (win : Window)
          (r : t A) (c : Compositor) (p0 : list TrackedDevicePose_t) :
    GlfwApp.init_gl E h app = (Ok tt, app1, e0) ->
    GlfwApp.window app1 = Some win ->
    GlfwApp.renderer app1 = Some r ->
    compositor r = Some c ->
    poses r = Some p0 ->
    let h1 := h ++ e0 ++ [glfw_make_context_current win] in
    bPoseIsValid (env_waitGetPoses E h1 openvr.k_unTrackedDeviceIndex_Hmd) = false ->
    GlfwApp.render_scene E h app
    = (Ok tt,
       GlfwApp.set_renderer (Some (set_poses (Some (poses_after E h1)) r)) app1,
       e0 ++ [glfw_make_context_current win;
              waitGetPoses openvr.k_unMaxTrackedDeviceCount (poses_after E h1);
              glfw_swap_buffers win; glfw_poll_events]).
  Proof.
    intros Hinit Hwin Hr Hc Hp h1 Hinvalid.
    unfold GlfwApp.render_scene. unfold bind at 1. rewrite Hinit.
    run_step. rewrite Hwin, Hr. unfold GlfwApp.on_renderer. run_step.
    cbn [Renderer.render_scene app_renderer scene_renderer].
    rewrite !app_nil_r, <- !app_assoc. fold h1.
    rewrite (renderer_skips_invalid_frame h1 r c p0 Hc Hp Hinvalid).
    cbn [Datatypes.app]. reflexivity.
  Qed.

End WithActor.

Import Examples.

Lemma render_scene_init_raises_witness :
    app_render_scene env_glfw_init_fails [] glfwApp
    = (Raise (PyException "GLFW Initialization error"), glfwApp, [glfw_init false]).
  Proof.
    exact (render_scene_init_raises env_glfw_init_fails
             (H := cube_renderer env_glfw_init_fails) [] glfwApp glfwApp
             [glfw_init false] _ eq_refl).
  Defined.

Lemma key_callback_escape_only_witness :
    GlfwApp.key_callback glfw.KEY_ESCAPE glfw.PRESS [] app_window_only
    = (Ok tt, app_window_only, [glfw_set_window_should_close 1 true])
    /\ GlfwApp.key_callback 65 glfw.PRESS [] app_window_only
       = (Ok tt, app_window_only, []).
  Proof.
    split.
    - exact (key_callback_escape_only [] app_window_only 1
               glfw.KEY_ESCAPE glfw.PRESS eq_refl).
    - exact (key_callback_escape_only [] app_window_only 1 65 glfw.PRESS eq_refl).
  Defined.

Lemma dispose_gl_without_window_witness :
    app_dispose_gl env_ok [] glfwApp
    = (Ok tt, GlfwApp.set_is_initialized false glfwApp, [glfw_terminate]).
  Proof.
    exact (dispose_gl_without_window (H := cube_renderer env_ok) [] glfwApp eq_refl).
  Defined.

Lemma dispose_gl_with_window_witness :
    result_of (app_dispose_gl env_ok [] app_after_init) = Ok tt
    /\ GlfwApp._is_initialized (state_of (app_dispose_gl env_ok [] app_after_init))
       = false.
  Proof.
    unfold app_dispose_gl.
    rewrite (dispose_gl_with_window (H := cube_renderer env_ok) []
               app_after_init 1 renderer_after_init
               (state_of (renderer_dispose_gl env_ok [glfw_make_context_current 1]
                            renderer_after_init))
               (events_of (renderer_dispose_gl env_ok [glfw_make_context_current 1]
                             renderer_after_init))
               eq_refl eq_refl eq_refl).
    split; reflexivity.
  Defined.

Lemma dispose_gl_renderer_raises_witness :
    app_dispose_gl env_ok [] app_window_only
    = (Raise (AttributeError "vao"), app_window_only,
       [glfw_make_context_current 1; glDeleteProgram 0]).
  Proof.
    exact (dispose_gl_renderer_raises (H := cube_renderer env_ok) []
             app_window_only 1 renderer0 renderer0 [glDeleteProgram 0]
             (AttributeError "vao") eq_refl eq_refl eq_refl).
  Defined.

Lemma init_gl_after_dispose_gl_witness :
    exists rest,
      events_of (app_init_gl env_ok [glfw_terminate]
                   (GlfwApp.set_is_initialized false glfwApp))
      = glfw_init true :: rest.
  Proof.
    exact (proj2 (init_gl_after_dispose_gl env_ok (H := cube_renderer env_ok)
                    [] [glfw_terminate] glfwApp
                    (GlfwApp.set_is_initialized false glfwApp)
                    [glfw_terminate] eq_refl)).
  Defined.

Lemma frame_without_tracking_witness :
    events_of (app_render_scene env_hmd_lost [] glfwApp)
    = events_of (app_init_gl env_hmd_lost [] glfwApp)
        ++ [glfw_make_context_current 1;
            waitGetPoses openvr.k_unMaxTrackedDeviceCount
              (repeat invalid_pose openvr.k_unMaxTrackedDeviceCount);
            glfw_swap_buffers 1; glfw_poll_events].
  Proof.
    assert (Hinit : app_init_gl env_hmd_lost [] glfwApp
                    = (Ok tt, state_of (app_init_gl env_hmd_lost [] glfwApp),
                       events_of (app_init_gl env_hmd_lost [] glfwApp)))
      by (vm_compute; reflexivity).
    unfold app_render_scene.
    change (cube_renderer env_hmd_lost)
      with (app_renderer env_hmd_lost (H := cube_resource env_hmd_lost)).
    rewrite (frame_without_tracking env_hmd_lost (H := cube_resource env_hmd_lost)
               glfwApp _ [] _ 1
               (match GlfwApp.renderer (state_of (app_init_gl env_hmd_lost [] glfwApp))
                with Some r => r | None => renderer0 end)
               9 (repeat OpenVrGlRenderer.zero_pose openvr.k_unMaxTrackedDeviceCount)
               Hinit eq_refl eq_refl eq_refl eq_refl eq_refl).
    reflexivity.
  Defined.

End GlfwApp_lifetime.
